(** * SuperMango backend: weather-risk advisor and batch severity route

    A shallow embedding of [services/rule_service.py] and of the
    [getPrescription] route of [routes/core.py], over a small model of the
    Python values they compute with: exceptions, binary64 floats with
    round-to-nearest-even arithmetic, the built-in [round], list indexing
    and dict lookup.  The image decoder and the ResNet classifier are
    collaborators of the route and are taken as parameters. *)

From Stdlib Require Import ZArith QArith Qround Qabs Qpower Qreduction Lia Lqa.
From Stdlib Require Floats.SpecFloat.
From stdpp Require Import gmap strings list.

(* ================================================================== *)
(** * Python values                                                    *)
(* ================================================================== *)

(** ** Exceptions and results *)

(** An exception is identified by the name of its class. *)
Inductive exn : Type :=
| Exception (cls : string).

Definition ZeroDivisionError : exn := Exception "ZeroDivisionError".
Definition OverflowError : exn := Exception "OverflowError".
Definition ValueError : exn := Exception "ValueError".
Definition IndexError : exn := Exception "IndexError".
Definition KeyError : exn := Exception "KeyError".

Inductive result (A : Type) : Type :=
| Ok (a : A)
| Raise (e : exn).

Arguments Ok {A} a.
Arguments Raise {A} e.

(** ** Binary64 floats

    A float is a finite value, an infinity or a NaN.  Finite values carry
    the rational they denote; the two zeros are identified (the program
    never tells them apart). *)
Inductive pyfloat : Type :=
| Fin (q : Q)
| Inf (negative : bool)
| NaN.

Definition pow2 (k : Z) : Q := (2 ^ k)%Q.

(** Round half to even, to an integer. *)
Definition rne (x : Q) : Z :=
  let f := Qfloor x in
  match Qcompare (x - inject_Z f) (1 # 2) with
  | Lt => f
  | Gt => (f + 1)%Z
  | Eq => if Z.even f then f else (f + 1)%Z
  end.

(** [ilog2 x] is the binary exponent of a positive [x]:
    [2 ^ ilog2 x <= x < 2 ^ (ilog2 x + 1)]. *)
Definition ilog2 (x : Q) : Z :=
  let k := (Z.log2 (Qnum x) - Z.log2 (Zpos (Qden x)))%Z in
  if Qle_bool (pow2 k) x then k else (k - 1)%Z.

(** Exponent of the last mantissa bit of the binary64 floats around [x]:
    53 bits of precision, subnormals from [2 ^ -1074]. *)
Definition fexp (x : Q) : Z := Z.max (ilog2 x - 52) (-1074).

Definition ulp (x : Q) : Q := pow2 (fexp (Qabs x)).

(** Round to nearest, ties to even, on the binary64 grid (exponent not
    bounded above; see [overflows]).  The result is in lowest terms. *)
Definition RN (x : Q) : Q :=
  let x := Qred x in
  Qred (inject_Z (rne (x / ulp x)) * ulp x)%Q.

(** A rounded value at or beyond [2 ^ 1024] is out of the binary64 range. *)
Definition overflows (r : Q) : bool := Qle_bool (pow2 1024) (Qabs r).

(** IEEE-754 result of an operation whose exact value is [q]. *)
Definition float_of_Q (q : Q) : pyfloat :=
  let r := RN q in
  if overflows r then Inf (negb (Qle_bool 0 r)) else Fin r.

(** A float literal of the source text, such as [33.33]. *)
Definition float_literal (q : Q) : pyfloat := float_of_Q q.

(** [float(n)] for an int [n]. *)
Definition float_of_int (n : Z) : result pyfloat :=
  let r := RN (inject_Z n) in
  if overflows r then Raise OverflowError else Ok (Fin r).

(** [a / b] on ints: the exact quotient, correctly rounded. *)
Definition int_truediv (a b : Z) : result pyfloat :=
  if (b =? 0)%Z then Raise ZeroDivisionError
  else
    let r := RN (inject_Z a / inject_Z b)%Q in
    if overflows r then Raise OverflowError else Ok (Fin r).

Definition Qneg (q : Q) : bool := negb (Qle_bool 0 q).

(** [x * y] on floats. *)
Definition float_mul (x y : pyfloat) : pyfloat :=
  match x, y with
  | NaN, _ | _, NaN => NaN
  | Inf sx, Inf sy => Inf (xorb sx sy)
  | Inf s, Fin q | Fin q, Inf s =>
      if Qeq_bool q 0 then NaN else Inf (xorb s (Qneg q))
  | Fin a, Fin b => float_of_Q (a * b)%Q
  end.

(** [x * n] for a float [x] and an int [n]: the int is converted first. *)
Definition float_mul_int (x : pyfloat) (n : Z) : result pyfloat :=
  match float_of_int n with
  | Ok y => Ok (float_mul x y)
  | Raise e => Raise e
  end.

(** Comparison of floats; a NaN is unordered. *)
Definition float_compare (x y : pyfloat) : option comparison :=
  match x, y with
  | NaN, _ | _, NaN => None
  | Fin a, Fin b => Some (Qcompare a b)
  | Inf sx, Inf sy =>
      Some (if sx then if sy then Eq else Lt else if sy then Gt else Eq)
  | Inf s, Fin _ => Some (if s then Lt else Gt)
  | Fin _, Inf s => Some (if s then Gt else Lt)
  end.

Definition float_lt (x y : pyfloat) : bool :=
  match float_compare x y with Some Lt => true | _ => false end.

Definition float_le (x y : pyfloat) : bool :=
  match float_compare x y with Some Lt | Some Eq => true | _ => false end.

Definition float_ge (x y : pyfloat) : bool := float_le y x.

(** An int operand of a comparison with a float is compared exactly. *)
Definition int (n : Z) : pyfloat := Fin (inject_Z n).

(** [round(x)]: the nearest int, ties to even. *)
Definition float_round (x : pyfloat) : result Z :=
  match x with
  | Fin q => Ok (rne q)
  | Inf _ => Raise OverflowError
  | NaN => Raise ValueError
  end.

Definition NDIGITS_MAX : Z := 323.
Definition NDIGITS_MIN : Z := -308.

(** [round(x, ndigits)]: [x] is rounded, ties to even, to a decimal with
    [ndigits] digits after the point, and the decimal is converted back to
    the nearest float. *)
Definition float_round_ndigits (x : pyfloat) (ndigits : Z) : result pyfloat :=
  match x with
  | Fin q =>
      if (NDIGITS_MAX <? ndigits)%Z then Ok x
      else if (ndigits <? NDIGITS_MIN)%Z then Ok (Fin 0)
      else
        let d := (10 ^ ndigits)%Q in
        let r := RN (inject_Z (rne (q * d)) / d)%Q in
        if overflows r then Raise OverflowError else Ok (Fin r)
  | _ => Ok x
  end.

(** ** Lists and dicts *)

(** [l[i]]: a negative index counts from the end. *)
Definition list_getitem {A : Type} (l : list A) (i : Z) : result A :=
  let n := Z.of_nat (length l) in
  let j := if (i <? 0)%Z then (i + n)%Z else i in
  if (j <? 0)%Z then Raise IndexError
  else
    match l !! Z.to_nat j with
    | Some a => Ok a
    | None => Raise IndexError
    end.

(** [d[k]]. *)
Definition dict_getitem {K : Type} `{Countable K} {V : Type}
    (d : gmap K V) (k : K) : result V :=
  match d !! k with
  | Some v => Ok v
  | None => Raise KeyError
  end.

(** A dict display [{k1: v1, k2: v2, ...}]: entries are stored in order, a
    later entry replacing an earlier one with the same key. *)
Definition dict_literal {K : Type} `{Countable K} {V : Type}
    (items : list (K * V)) : gmap K V :=
  foldl (fun d kv => <[kv.1 := kv.2]> d) ∅ items.

(** The newline character of a [\n] escape. *)
Definition NL : string := String (Ascii.ascii_of_nat 10) EmptyString.

(** ** Module state and the monad of Python code

    The module-level lists and dicts are mutable objects shared by every
    call; the code runs in a state-and-exception monad over them. *)
Record store : Type := {
  rule_service_CLASS_LABELS : list string;
  rule_service_RULE_MATRIX : gmap (string * string) string;
  rule_service_INFO_MATRIX : gmap (string * string) string;
  core_CLASS_LABELS : list string
}.

Definition Py (A : Type) : Type := store -> result A * store.

Definition ret {A : Type} (a : A) : Py A := fun s => (Ok a, s).

Definition raise {A : Type} (e : exn) : Py A := fun s => (Raise e, s).

Definition bind {A B : Type} (m : Py A) (k : A -> Py B) : Py B :=
  fun s =>
    match m s with
    | (Ok a, s') => k a s'
    | (Raise e, s') => (Raise e, s')
    end.

(** Read a module-level name. *)
Definition load {A : Type} (name : store -> A) : Py A := fun s => (Ok (name s), s).

(** An operation on values that touches no module state. *)
Definition lift {A : Type} (r : result A) : Py A := fun s => (r, s).

Notation "x <- m ;; k" := (bind m (fun x => k))
  (at level 100, m at next level, right associativity).

(* ================================================================== *)
(** * services/rule_service.py                                         *)
(* ================================================================== *)

Module rule_service.

Definition CLASS_LABELS : list string := ["Healthy"; "Mild"; "Moderate"; "Severe"].

(** Weather-risk classifier. *)
Definition _weather_risk (temp rh wet : pyfloat) : string :=
  let high_classic :=
    float_le (int 25) temp && float_le temp (int 30)
    && float_ge rh (int 95) && float_ge wet (int 12) in
  let high_rainsun :=
    float_le (int 22) temp && float_le temp (int 30)
    && float_ge rh (int 95) && float_ge wet (int 6) in
  if high_classic || high_rainsun then "High"
  else if float_lt temp (int 22) || float_lt rh (int 85) || float_lt wet (int 6)
       then "Low"
  else "Medium".

Definition _RULE_MATRIX : gmap (string * string) string :=
  dict_literal [
    (("Healthy", "Low"),
       "1. Inspect a few trees every 5 days for new spots." +:+ NL +:+
       "2. Prune crossing shoots so air flows freely." +:+ NL +:+
       "3. Keep fertiliser balanced; avoid excess nitrogen.");
    (("Mild", "Low"),
       "1. Pluck leaves with lesions and discard them far from the block." +:+ NL +:+
       "2. Disinfect pruning tools between trees." +:+ NL +:+
       "3. Give one coat of *non-systemic* copper or mancozeb (2 g L⁻¹)." +:+ NL +:+
       "4. Save systemic fungicides for later if pressure stays low.");
    (("Moderate", "Low"),
       "1. Spot-spray copper oxychloride 2 g L⁻¹ on clusters with lesions." +:+ NL +:+
       "2. Prune twigs with > 30 % infected leaves." +:+ NL +:+
       "3. Re-check in 3 days; if spots expand, move up to a systemic." +:+ NL +:+
       "4. Rotate fungicide group on the next spray.");
    (("Severe", "Low"),
       "1. Remove heavily infected branches and *burn* them off-site." +:+ NL +:+
       "2. Spray azoxystrobin 0.2 mL L⁻¹ + mancozeb 2 g L⁻¹ over the canopy." +:+ NL +:+
       "3. Flag these trees for weekly follow-up." +:+ NL +:+
       "4. Seal big cuts with wound paint to block reinfection.");
    (("Healthy", "Medium"),
       "1. Blanket-spray copper hydroxide 2 g L⁻¹." +:+ NL +:+
       "2. Thin the crowded interior so leaves dry faster." +:+ NL +:+
       "3. Book a second copper round in 12 days.");
    (("Mild", "Medium"),
       "1. Collect and remove infected foliage." +:+ NL +:+
       "2. Spray chlorothalonil 3 g L⁻¹ today." +:+ NL +:+
       "3. Follow with azoxystrobin 0.2 mL L⁻¹ after 7 days." +:+ NL +:+
       "4. **Rotate** to a different fungicide class next spray.");
    (("Moderate", "Medium"),
       "1. Mix tebuconazole 0.2 mL L⁻¹ + mancozeb 2 g L⁻¹; spray to runoff." +:+ NL +:+
       "2. Prune and burn infected twigs." +:+ NL +:+
       "3. Repeat systemic in 7–10 days if lesions stay active." +:+ NL +:+
       "4. Switch fungicide class at the next application.");
    (("Severe", "Medium"),
       "1. Lop off fruiting twigs with lesions; burn them." +:+ NL +:+
       "2. Spray propiconazole 0.25 mL L⁻¹ + mancozeb 2 g L⁻¹." +:+ NL +:+
       "3. Re-inspect in 5 days; keep rotating systemics until new growth is clean." +:+ NL +:+
       "4. Seal pruning wounds to stop fresh spores entering.");
    (("Healthy", "High"),
       "1. Within 24 h spray copper oxychloride 2 g L⁻¹." +:+ NL +:+
       "2. Keep a 7-day copper schedule until weather calms." +:+ NL +:+
       "3. Improve drainage and avoid overhead irrigation.");
    (("Mild", "High"),
       "1. Within 24 h spray azoxystrobin 0.2 mL L⁻¹ + mancozeb 2 g L⁻¹." +:+ NL +:+
       "2. Remove reachable infected leaves only if canopy loss < 10 %." +:+ NL +:+
       "3. Check lesions every 3 days; keep a 7-day spray interval." +:+ NL +:+
       "4. Rotate fungicide class each cycle.");
    (("Moderate", "High"),
       "1. Prune branches with heavy spotting before spraying." +:+ NL +:+
       "2. Within 24 h tank-mix azoxystrobin 0.2 mL L⁻¹ + tebuconazole 0.25 mL L⁻¹ + mancozeb 2 g L⁻¹." +:+ NL +:+
       "3. Spray every 5–7 days until wetness hours drop below 6 h." +:+ NL +:+
       "4. Rotate fungicide class every round.");
    (("Severe", "High"),
       "1. Quarantine the block—essential staff only." +:+ NL +:+
       "2. Destroy the worst 30 % of foliage and burn it down-wind." +:+ NL +:+
       "3. Start a 3-spray rotation: day 0 difenoconazole 0.3 mL L⁻¹ + chlorothalonil 3 g L⁻¹;" +:+ NL +:+
       "   day 5 propiconazole + mancozeb; day 10 repeat day 0 mix." +:+ NL +:+
       "4. Seal all pruning cuts with wound paint." +:+ NL +:+
       "5. Keep rotating fungicides every 5 days.")
  ].

Definition _INFO_MATRIX : gmap (string * string) string :=
  dict_literal [
    (("Healthy", "Low"),
       "Cool, dry weather slows spores—watchful waiting is enough.");
    (("Mild", "Low"),
       "Early lesion removal cuts the spore load; non-systemic copper is gentle on soil life.");
    (("Moderate", "Low"),
       "Copper shields the surface; pruning lowers inoculum; rotation avoids resistance.");
    (("Severe", "Low"),
       "Systemic + protectant reaches hidden infections; wound paint blocks new entry points.");
    (("Healthy", "Medium"),
       "Weather is turning friendly to the fungus; copper barrier stops spores from germinating.");
    (("Mild", "Medium"),
       "Protectant cleans the leaf, systemic cures hidden spots; alternating classes prevents immunity.");
    (("Moderate", "Medium"),
       "Mixed modes of action tackle established lesions; FRAC rotation keeps chemistry effective.");
    (("Severe", "Medium"),
       "Heavy sanitation plus wound care remove reservoirs while rotating fungicides holds the line.");
    (("Healthy", "High"),
       "Prolonged wet, humid spells are perfect for infection—continuous copper barrier is vital.");
    (("Mild", "High"),
       "Curative systemic freezes the fungus; protectant stops new spread; strict rotation fights resistance.");
    (("Moderate", "High"),
       "Rapid spread needs multiple actives and short intervals; rotation + sanitation contain the 24-h threat.");
    (("Severe", "High"),
       "When canopy infection meets perfect weather, only combined chemical, sanitation, and wound-sealing can salvage any yield.")
  ].

(** The dict returned by [get_recommendation]. *)
Record recommendation : Type := {
  severity_label : string;
  weather_risk : string;
  advice : string;
  info : string
}.

Definition get_recommendation
    (severity_idx : Z) (humidity temperature wetness : pyfloat)
    : Py recommendation :=
  labels <- load rule_service_CLASS_LABELS ;;
  severity_label <- lift (list_getitem labels severity_idx) ;;
  let risk_label := _weather_risk temperature humidity wetness in
  rules <- load rule_service_RULE_MATRIX ;;
  advice <- lift (dict_getitem rules (severity_label, risk_label)) ;;
  infos <- load rule_service_INFO_MATRIX ;;
  info <- lift (dict_getitem infos (severity_label, risk_label)) ;;
  ret {| severity_label := severity_label;
         weather_risk := risk_label;
         advice := advice;
         info := info |}.

End rule_service.

(* ================================================================== *)
(** * routes/core.py                                                   *)
(* ================================================================== *)

Module core.

Definition NUM_CLASSES : Z := 4.
Definition CLASS_LABELS : list string := ["Healthy"; "Mild"; "Moderate"; "Severe"].
Definition MAX_SEVERITY_SCORE : Z := NUM_CLASSES - 1.

(** An entry of [predictions]. *)
Record prediction : Type := {
  idx : Z;
  severity : Z;
  label : string
}.

Record weather_reading : Type := {
  humidity : pyfloat;
  temperature : pyfloat;
  wetness : pyfloat;
  lat : pyfloat;
  lon : pyfloat
}.

(** The dict returned by the route. *)
Record response : Type := {
  percent_severity_index : pyfloat;
  overall_label : string;
  overall_severity_index : Z;
  weather : weather_reading;
  recommendation : rule_service.recommendation
}.

Section Route.

(** The uploaded files, the decoder ([file.read], [Image.open],
    [convert]), which fails on bytes that are not an image, and the
    classifier ([TRANSFORM], the ResNet forward pass, [argmax], [int]). *)
Variable UploadFile : Type.
Variable Image : Type.
Variable open_rgb : UploadFile -> result Image.
Variable predict : Image -> Z.

(** The per-image loop, from position [idx] on, with the accumulators
    [predictions] and [severity_sum]. *)
Fixpoint per_image_inference (files : list UploadFile) (idx : Z)
    (predictions : list prediction) (severity_sum : Z)
    : Py (list prediction * Z) :=
  match files with
  | [] => ret (predictions, severity_sum)
  | file :: files' =>
      img <- lift (open_rgb file) ;;
      let severity := predict img in
      labels <- load core_CLASS_LABELS ;;
      label <- lift (list_getitem labels severity) ;;
      per_image_inference files' (idx + 1)
        (predictions ++ [ {| idx := idx; severity := severity; label := label |} ])
        (severity_sum + severity)
  end.

Definition getPrescription (files : list UploadFile)
    (humidity temperature wetness lat lon : pyfloat) : Py response :=
  acc <- per_image_inference files 0 [] 0 ;;
  let predictions := acc.1 in
  let severity_sum := acc.2 in
  let len_predictions := Z.of_nat (length predictions) in
  ratio <- lift (int_truediv severity_sum (MAX_SEVERITY_SCORE * len_predictions)) ;;
  percent <- lift (float_mul_int ratio 100) ;;
  psi <- lift (float_round_ndigits percent 2) ;;
  mean <- lift (int_truediv severity_sum len_predictions) ;;
  overall_idx <- lift (float_round mean) ;;
  labels <- load core_CLASS_LABELS ;;
  overall_label <- lift (list_getitem labels overall_idx) ;;
  recommendation <-
    rule_service.get_recommendation overall_idx humidity temperature wetness ;;
  ret {| percent_severity_index := psi;
         overall_label := overall_label;
         overall_severity_index := overall_idx;
         weather := {| humidity := humidity;
                       temperature := temperature;
                       wetness := wetness;
                       lat := lat;
                       lon := lon |};
         recommendation := recommendation |}.

End Route.

End core.

(** The module state once both modules are imported. *)
Definition initial_store : store := {|
  rule_service_CLASS_LABELS := rule_service.CLASS_LABELS;
  rule_service_RULE_MATRIX := rule_service._RULE_MATRIX;
  rule_service_INFO_MATRIX := rule_service._INFO_MATRIX;
  core_CLASS_LABELS := core.CLASS_LABELS
|}.

(* ================================================================== *)
(** * Specification vocabulary                                         *)
(* ================================================================== *)

(** The order of the floats as numbers: a NaN is related to nothing. *)
Inductive num_le : pyfloat -> pyfloat -> Prop :=
| le_fin (a b : Q) : (a <= b)%Q -> num_le (Fin a) (Fin b)
| le_neg_inf (y : pyfloat) : y <> NaN -> num_le (Inf true) y
| le_pos_inf (x : pyfloat) : x <> NaN -> num_le x (Inf false).

Inductive num_lt : pyfloat -> pyfloat -> Prop :=
| lt_fin (a b : Q) : (a < b)%Q -> num_lt (Fin a) (Fin b)
| lt_neg_inf_fin (b : Q) : num_lt (Inf true) (Fin b)
| lt_fin_pos_inf (a : Q) : num_lt (Fin a) (Inf false)
| lt_neg_inf_pos_inf : num_lt (Inf true) (Inf false).

(** The two high-risk rules and the low-risk rule of the docstring of
    [_weather_risk]. *)
Definition high_classic_rule (t h w : pyfloat) : Prop :=
  num_le (int 25) t /\ num_le t (int 30) /\ num_le (int 95) h /\ num_le (int 12) w.

Definition high_rainsun_rule (t h w : pyfloat) : Prop :=
  num_le (int 22) t /\ num_le t (int 30) /\ num_le (int 95) h /\ num_le (int 6) w.

Definition high_rule (t h w : pyfloat) : Prop :=
  high_classic_rule t h w \/ high_rainsun_rule t h w.

Definition low_rule (t h w : pyfloat) : Prop :=
  num_lt t (int 22) \/ num_lt h (int 85) \/ num_lt w (int 6).

(** The error classes named by the specification.  No code raises them. *)
Definition InvalidInputError : exn := Exception "InvalidInputError".
Definition ConfigurationError : exn := Exception "ConfigurationError".


(** A computation that leaves the module state as it found it. *)
Definition preserves_store {A : Type} (m : Py A) : Prop :=
  forall s : store, (m s).2 = s.

(** A severity class of the classifier. *)
Definition severity_class (c : Z) : Prop := (0 <= c <= 3)%Z.

Definition sum_classes (classes : list Z) : Z := foldr Z.add 0%Z classes.

(** The mean of the classes of a batch, as a rational. *)
Definition mean_class (classes : list Z) : Q :=
  (inject_Z (sum_classes classes) / inject_Z (Z.of_nat (length classes)))%Q.

(** [round(s / (3 * n) * 100, 2)] on ints [s] and [n], each operation
    rounded as binary64 arithmetic does. *)
Definition psi_formula (s n : Z) : Q :=
  let ratio := RN (inject_Z s / inject_Z (3 * n))%Q in
  let percent := RN (ratio * 100)%Q in
  RN (inject_Z (rne (percent * 100)) / 100)%Q.

(** The same response with other coordinates. *)
Definition with_coordinates (lat lon : pyfloat) (r : core.response) : core.response :=
  {| core.percent_severity_index := core.percent_severity_index r;
     core.overall_label := core.overall_label r;
     core.overall_severity_index := core.overall_severity_index r;
     core.weather :=
       {| core.humidity := core.humidity (core.weather r);
          core.temperature := core.temperature (core.weather r);
          core.wetness := core.wetness (core.weather r);
          core.lat := lat;
          core.lon := lon |};
     core.recommendation := core.recommendation r |}.

Definition map_result {A B : Type} (f : A -> B) (r : result A) : result B :=
  match r with
  | Ok a => Ok (f a)
  | Raise e => Raise e
  end.

Section Batches.

Variable UploadFile : Type.
Variable Image : Type.
Variable open_rgb : UploadFile -> result Image.
Variable predict : Image -> Z.

(** Every file of the batch decodes, and [classes] lists the classes the
    classifier assigns to the images, in order. *)
Definition classified (files : list UploadFile) (classes : list Z) : Prop :=
  Forall2 (fun file c => exists img, open_rgb file = Ok img /\ predict img = c)
    files classes.

End Batches.

Arguments classified {UploadFile Image} open_rgb predict files classes.

(** Sample collaborators: an upload is identified with the class of the
    leaf it shows. *)
Definition sample_open_rgb (file : Z) : result Z := Ok file.
Definition sample_predict (img : Z) : Z := img.

(** ** The IEEE-754 specification of the Standard Library

    [SpecFloat] gives binary64 division and multiplication on
    mantissa-exponent pairs; [metrics_agree] compares it with [RN] on the
    three float operations of the batch metrics. *)
Definition SF_value (f : SpecFloat.spec_float) : Q :=
  match f with
  | SpecFloat.S754_finite s m e =>
      ((if s then -1 else 1) * inject_Z (Zpos m) * pow2 e)%Q
  | _ => 0%Q
  end.

Definition SF_of_int (n : Z) : SpecFloat.spec_float :=
  SpecFloat.binary_normalize 53 1024 n 0 false.

Definition metrics_agree (s n : Z) : bool :=
  let ratio := SpecFloat.SFdiv 53 1024 (SF_of_int s) (SF_of_int (3 * n)) in
  let percent := SpecFloat.SFmul 53 1024 ratio (SF_of_int 100) in
  let mean := SpecFloat.SFdiv 53 1024 (SF_of_int s) (SF_of_int n) in
  Qeq_bool (SF_value ratio) (RN (inject_Z s / inject_Z (3 * n)))
  && Qeq_bool (SF_value percent)
       (RN (RN (inject_Z s / inject_Z (3 * n)) * 100))
  && Qeq_bool (SF_value mean) (RN (inject_Z s / inject_Z n)).

(** [P s n] for every batch size [n] from 1 to [N] and every sum [s] of
    [n] classes. *)
Definition all_batches_up_to (N : nat) (P : Z -> Z -> bool) : bool :=
  forallb
    (fun n => forallb (fun s => P (Z.of_nat s) (Z.of_nat n)) (seq 0 (3 * n + 1)))
    (seq 1 N).

(** ** Further vocabulary *)

(** The percent severity index as a function of the exact ratio
    [sum / (3 * N)]: [psi_formula s n] is [psi_of_ratio] of
    [s / (3 * n)]. *)
Definition psi_of_ratio (x : Q) : Q :=
  RN (inject_Z (rne (RN (RN x * 100) * 100)) / 100)%Q.

(** The module state after one advisory has been removed from
    [_RULE_MATRIX]. *)
Definition store_without_rule (key : string * string) : store := {|
  rule_service_CLASS_LABELS := rule_service.CLASS_LABELS;
  rule_service_RULE_MATRIX := delete key rule_service._RULE_MATRIX;
  rule_service_INFO_MATRIX := rule_service._INFO_MATRIX;
  core_CLASS_LABELS := core.CLASS_LABELS
|}.

(** A sample decoder that rejects some uploads: a negative number stands
    for bytes that are not an image. *)
Definition sample_open_rgb_checked (file : Z) : result Z :=
  if (file <? 0)%Z then Raise (Exception "UnidentifiedImageError") else Ok file.

(** The tiers in order of risk: "Low", "Medium", "High". *)
Definition tier_rank (tier : string) : nat :=
  if String.eqb tier "High" then 2
  else if String.eqb tier "Medium" then 1
  else 0.

(* ================================================================== *)
(** * Binary64 rounding                                               *)
(* ================================================================== *)

Section FloatArithmetic.

Local Open Scope Q_scope.

(** ** Rounding to an integer *)

Lemma Qfloor_bounds (x : Q) : inject_Z (Qfloor x) <= x < inject_Z (Qfloor x) + 1.
Proof.
  split; [apply Qfloor_le|].
  pose proof (Qlt_floor x) as H. rewrite inject_Z_plus in H. exact H.
Qed.

Lemma Qfloor_unique (x : Q) (n : Z) :
  inject_Z n <= x -> x < inject_Z n + 1 -> Qfloor x = n.
Proof.
  intros Hl Hu. destruct (Qfloor_bounds x) as [Fl Fu].
  assert (H1 : inject_Z n < inject_Z (Qfloor x) + 1) by lra.
  assert (H2 : inject_Z (Qfloor x) < inject_Z n + 1) by lra.
  change 1 with (inject_Z 1) in H1, H2.
  rewrite <- inject_Z_plus, <- Zlt_Qlt in H1, H2. lia.
Qed.

Lemma rne_cases (x : Q) :
  let f := Qfloor x in
  (x - inject_Z f < 1 # 2 /\ rne x = f) \/
  (x - inject_Z f == 1 # 2 /\ rne x = if Z.even f then f else (f + 1)%Z) \/
  (1 # 2 < x - inject_Z f /\ rne x = (f + 1)%Z).
Proof.
  intros f. unfold rne. fold f.
  destruct (Qcompare (x - inject_Z f) (1 # 2)) eqn:E.
  - right; left. split; [now apply Qeq_alt|reflexivity].
  - left. split; [now apply Qlt_alt|reflexivity].
  - right; right. split; [now apply Qgt_alt|reflexivity].
Qed.

Lemma rne_wd (x y : Q) : x == y -> rne x = rne y.
Proof.
  intros H. unfold rne. rewrite (Qfloor_comp x y H).
  assert (E : x - inject_Z (Qfloor y) == y - inject_Z (Qfloor y)) by lra.
  now rewrite (Qcompare_comp _ _ E _ _ (Qeq_refl (1 # 2))).
Qed.

Lemma rne_Z (z : Z) : rne (inject_Z z) = z.
Proof.
  destruct (rne_cases (inject_Z z)) as [[H E]|[[H E]|[H E]]];
    rewrite Qfloor_Z in *; try lra. exact E.
Qed.

Lemma rne_le_floor_succ (x : Q) : (Qfloor x <= rne x <= Qfloor x + 1)%Z.
Proof.
  destruct (rne_cases x) as [[H E]|[[H E]|[H E]]]; rewrite E; try lia.
  destruct (Z.even _); lia.
Qed.

Lemma rne_mono (x y : Q) : x <= y -> (rne x <= rne y)%Z.
Proof.
  intros Hxy. pose proof (Qfloor_resp_le _ _ Hxy) as Hf.
  destruct (Z.eq_dec (Qfloor x) (Qfloor y)) as [e|ne].
  - destruct (rne_cases x) as [[Hx Ex]|[[Hx Ex]|[Hx Ex]]];
    destruct (rne_cases y) as [[Hy Ey]|[[Hy Ey]|[Hy Ey]]];
    rewrite Ex, Ey; rewrite <- e in *; try lia; try lra;
    destruct (Z.even _); lia.
  - pose proof (rne_le_floor_succ x). pose proof (rne_le_floor_succ y). lia.
Qed.

Lemma rne_err (x : Q) : Qabs (inject_Z (rne x) - x) <= 1 # 2.
Proof.
  destruct (Qfloor_bounds x) as [Fl Fu].
  apply Qabs_Qle_condition.
  destruct (rne_cases x) as [[H E]|[[H E]|[H E]]]; rewrite E.
  - lra.
  - destruct (Z.even _); [lra|]. rewrite inject_Z_plus. change (inject_Z 1) with 1. lra.
  - rewrite inject_Z_plus. change (inject_Z 1) with 1. lra.
Qed.

Lemma inject_Z_pred (n : Z) : inject_Z (n - 1) == inject_Z n - 1.
Proof. unfold Z.sub. rewrite inject_Z_plus. reflexivity. Qed.

Lemma inject_Z_succ (n : Z) : inject_Z (n + 1) == inject_Z n + 1.
Proof. rewrite inject_Z_plus. reflexivity. Qed.

Lemma rne_unique (x : Q) (n : Z) :
  inject_Z n - (1 # 2) < x -> x < inject_Z n + (1 # 2) -> rne x = n.
Proof.
  intros Hl Hu.
  destruct (Qlt_le_dec x (inject_Z n)) as [Hlt|Hge].
  - assert (F : Qfloor x = (n - 1)%Z).
    { apply Qfloor_unique; rewrite inject_Z_pred; lra. }
    destruct (rne_cases x) as [[H E]|[[H E]|[H E]]]; rewrite E; rewrite F in *;
      rewrite inject_Z_pred in H; try lra. lia.
  - assert (F : Qfloor x = n) by (apply Qfloor_unique; lra).
    destruct (rne_cases x) as [[H E]|[[H E]|[H E]]]; rewrite E; rewrite F in *;
      try lra. reflexivity.
Qed.

(** ** Powers of two and binary exponents *)

Lemma pow2_pos (k : Z) : 0 < pow2 k.
Proof. apply Qpower_0_lt. reflexivity. Qed.

Lemma pow2_add (a b : Z) : pow2 (a + b) == pow2 a * pow2 b.
Proof. apply Qpower_plus. discriminate. Qed.

Lemma pow2_le (a b : Z) : (a <= b)%Z -> pow2 a <= pow2 b.
Proof. intros H. apply Qpower_le_compat_l; [exact H|discriminate]. Qed.

Lemma pow2_lt (a b : Z) : (a < b)%Z -> pow2 a < pow2 b.
Proof. intros H. apply Qpower_lt_compat_l; [exact H|reflexivity]. Qed.

Lemma pow2_Z (k : Z) : (0 <= k)%Z -> pow2 k == inject_Z (2 ^ k).
Proof. intros H. unfold pow2. now rewrite Zpower_Qpower. Qed.

Lemma pow2_sub (a b : Z) : pow2 (a - b) == pow2 a / pow2 b.
Proof. apply Qpower_minus. discriminate. Qed.

Lemma Qdiv_lt_cross (p q r s : Z) :
  (0 < q)%Z -> (0 < s)%Z -> (p * s < r * q)%Z ->
  inject_Z p / inject_Z q < inject_Z r / inject_Z s.
Proof.
  intros Hq Hs H.
  assert (Hq' : 0 < inject_Z q) by (change 0 with (inject_Z 0); now rewrite <- Zlt_Qlt).
  assert (Hs' : 0 < inject_Z s) by (change 0 with (inject_Z 0); now rewrite <- Zlt_Qlt).
  apply Qlt_shift_div_l; [exact Hs'|].
  assert (E : inject_Z p / inject_Z q * inject_Z s == inject_Z p * inject_Z s / inject_Z q).
  { field. intros C. rewrite C in Hq'. discriminate. }
  rewrite E. apply Qlt_shift_div_r; [exact Hq'|].
  rewrite <- !inject_Z_mult, <- Zlt_Qlt. exact H.
Qed.

Lemma ilog2_spec (x : Q) : 0 < x -> pow2 (ilog2 x) <= x /\ x < pow2 (ilog2 x + 1).
Proof.
  intros Hx. destruct x as [n d]. unfold ilog2. cbn [Qnum Qden].
  assert (Hn : (0 < n)%Z) by (unfold Qlt in Hx; cbn in Hx; lia).
  set (a := Z.log2 n). set (b := Z.log2 (Z.pos d)).
  assert (Ha : (0 <= a)%Z) by apply Z.log2_nonneg.
  assert (Hb : (0 <= b)%Z) by apply Z.log2_nonneg.
  destruct (Z.log2_spec n Hn) as [Ha1 Ha2]. fold a in Ha1, Ha2.
  destruct (Z.log2_spec (Z.pos d) (Pos2Z.is_pos d)) as [Hb1 Hb2]. fold b in Hb1, Hb2.
  assert (Ex : n # d == inject_Z n / inject_Z (Z.pos d)) by apply Qmake_Qdiv.
  assert (P2 : forall k, (0 <= k)%Z -> (0 < 2 ^ k)%Z) by (intros; now apply Z.pow_pos_nonneg).
  assert (Up : n # d < pow2 (a - b + 1)).
  { replace (a - b + 1)%Z with (Z.succ a - b)%Z by lia.
    rewrite pow2_sub, !pow2_Z, Ex by lia.
    apply Qdiv_lt_cross; [lia|apply P2; lia|]. 
    apply Z.le_lt_trans with (n * Z.pos d)%Z; [apply Z.mul_le_mono_nonneg_l; lia|].
    apply Z.mul_lt_mono_pos_r; lia. }
  assert (Lo : pow2 (a - b - 1) < n # d).
  { replace (a - b - 1)%Z with (a - Z.succ b)%Z by lia.
    rewrite pow2_sub, !pow2_Z, Ex by lia.
    apply Qdiv_lt_cross; [apply P2; lia|lia|].
    apply Z.le_lt_trans with (n * Z.pos d)%Z; [apply Z.mul_le_mono_nonneg_r; lia|].
    apply Z.mul_lt_mono_pos_l; lia. }
  destruct (Qle_bool (pow2 (a - b)) (n # d)) eqn:E.
  - apply Qle_bool_iff in E. split; [exact E|exact Up].
  - assert (Hlt : n # d < pow2 (a - b)).
    { apply Qnot_le_lt. intros C. apply Qle_bool_iff in C. congruence. }
    replace (a - b - 1 + 1)%Z with (a - b)%Z by lia.
    split; [apply Qlt_le_weak; exact Lo|exact Hlt].
Qed.

Lemma ilog2_mono (x y : Q) : 0 < x -> x <= y -> (ilog2 x <= ilog2 y)%Z.
Proof.
  intros Hx Hxy.
  destruct (ilog2_spec x Hx) as [Lx Ux].
  destruct (ilog2_spec y) as [Ly Uy]; [lra|].
  destruct (Z_le_gt_dec (ilog2 x) (ilog2 y)) as [H|H]; [exact H|exfalso].
  assert (pow2 (ilog2 y + 1) <= pow2 (ilog2 x)) by (apply pow2_le; lia).
  lra.
Qed.

Lemma ilog2_unique (x : Q) (e : Z) : pow2 e <= x -> x < pow2 (e + 1) -> ilog2 x = e.
Proof.
  intros L U. pose proof (pow2_pos e) as Pe.
  destruct (ilog2_spec x) as [Lx Ux]; [lra|].
  destruct (Z_lt_le_dec (ilog2 x) e) as [H|H].
  - assert (pow2 (ilog2 x + 1) <= pow2 e) by (apply pow2_le; lia). lra.
  - destruct (Z_lt_le_dec e (ilog2 x)) as [H'|H']; [|lia].
    assert (pow2 (e + 1) <= pow2 (ilog2 x)) by (apply pow2_le; lia). lra.
Qed.

(** ** Rounding to a float: monotonicity and error *)


Lemma RN_wd (x y : Q) : x == y -> RN x = RN y.
Proof. intros H. unfold RN. now rewrite (Qred_complete x y H). Qed.

Lemma RN_pos_spec (x : Q) :
  0 < x -> RN x == inject_Z (rne (x / pow2 (fexp x))) * pow2 (fexp x).
Proof.
  intros Hx. unfold RN, ulp, fexp.
  assert (Er : Qred x == x) by apply Qred_correct.
  assert (Ea : Qabs (Qred x) == x) by (rewrite Qabs_pos; lra).
  destruct (ilog2_spec x Hx) as [L U].
  assert (El : ilog2 (Qabs (Qred x)) = ilog2 x) by (apply ilog2_unique; lra).
  rewrite Qred_correct, El.
  rewrite (rne_wd (Qred x / pow2 (Z.max (ilog2 x - 52) (-1074)))
                  (x / pow2 (Z.max (ilog2 x - 52) (-1074)))).
  - reflexivity.
  - now rewrite Er.
Qed.

Lemma Qdiv_pow2_le (x y : Q) (c : Z) : x <= y -> x / pow2 c <= y / pow2 c.
Proof.
  intros H. pose proof (pow2_pos c) as P.
  apply Qle_shift_div_l; [exact P|].
  assert (E : x / pow2 c * pow2 c == x) by (field; lra). lra.
Qed.

Lemma pow2_div (a c : Z) : pow2 a / pow2 c == pow2 (a - c).
Proof. symmetry. apply pow2_sub. Qed.

(** A power of two that is a multiple of the grid step bounds the rounding
    from either side. *)
Lemma RN_grid_le (x : Q) (c m : Z) :
  (c <= m)%Z -> x <= pow2 m ->
  inject_Z (rne (x / pow2 c)) * pow2 c <= pow2 m.
Proof.
  intros Hc Hx. pose proof (pow2_pos c) as P.
  assert (H : (rne (x / pow2 c) <= 2 ^ (m - c))%Z).
  { rewrite <- (rne_Z (2 ^ (m - c))). apply rne_mono.
    rewrite <- pow2_Z by lia. rewrite <- pow2_div. now apply Qdiv_pow2_le. }
  rewrite Zle_Qle, <- pow2_Z in H by lia.
  assert (E : pow2 m == pow2 (m - c) * pow2 c).
  { rewrite <- pow2_add. now replace (m - c + c)%Z with m by lia. }
  rewrite E. apply Qmult_le_compat_r; [exact H|lra].
Qed.

Lemma RN_grid_ge (x : Q) (c m : Z) :
  (c <= m)%Z -> pow2 m <= x ->
  pow2 m <= inject_Z (rne (x / pow2 c)) * pow2 c.
Proof.
  intros Hc Hx. pose proof (pow2_pos c) as P.
  assert (H : (2 ^ (m - c) <= rne (x / pow2 c))%Z).
  { rewrite <- (rne_Z (2 ^ (m - c))) at 1. apply rne_mono.
    rewrite <- pow2_Z by lia. rewrite <- pow2_div. now apply Qdiv_pow2_le. }
  rewrite Zle_Qle, <- pow2_Z in H by lia.
  assert (E : pow2 m == pow2 (m - c) * pow2 c).
  { rewrite <- pow2_add. now replace (m - c + c)%Z with m by lia. }
  rewrite E. apply Qmult_le_compat_r; [exact H|lra].
Qed.

Lemma RN_mono_pos (x y : Q) : 0 < x -> x <= y -> RN x <= RN y.
Proof.
  intros Hx Hxy. assert (Hy : 0 < y) by lra.
  rewrite (RN_pos_spec x Hx), (RN_pos_spec y Hy).
  pose proof (ilog2_mono x y Hx Hxy) as He.
  destruct (ilog2_spec x Hx) as [Lx Ux]. destruct (ilog2_spec y Hy) as [Ly Uy].
  destruct (Z.eq_dec (fexp x) (fexp y)) as [E|NE].
  - rewrite E. apply Qmult_le_compat_r; [|apply Qlt_le_weak, pow2_pos].
    rewrite <- Zle_Qle. apply rne_mono. now apply Qdiv_pow2_le.
  - unfold fexp in *.
    set (m := Z.max (ilog2 x + 1) (Z.max (ilog2 x - 52) (-1074))).
    apply Qle_trans with (pow2 m).
    + apply RN_grid_le; [lia|].
      apply Qle_trans with (pow2 (ilog2 x + 1)); [lra|apply pow2_le; lia].
    + apply Qle_trans with (pow2 (ilog2 y)); [apply pow2_le; lia|].
      apply RN_grid_ge; [lia|exact Ly].
Qed.

Lemma RN_0 : RN 0 = 0.
Proof. vm_compute. reflexivity. Qed.

Lemma RN_nonneg (x : Q) : 0 <= x -> 0 <= RN x.
Proof.
  intros Hx. destruct (Qlt_le_dec 0 x) as [H|H].
  - rewrite (RN_pos_spec x H). pose proof (pow2_pos (fexp x)) as P.
    apply Qmult_le_0_compat; [|lra].
    change 0 with (inject_Z 0). rewrite <- Zle_Qle.
    rewrite <- (rne_Z 0). apply rne_mono.
    apply Qle_shift_div_l; [exact P|]. change (inject_Z 0) with 0. lra.
  - assert (E : x == 0) by lra. rewrite (RN_wd x 0 E), RN_0. lra.
Qed.

Lemma RN_mono (x y : Q) : 0 <= x -> x <= y -> RN x <= RN y.
Proof.
  intros Hx Hxy. destruct (Qlt_le_dec 0 x) as [H|H].
  - now apply RN_mono_pos.
  - assert (E : x == 0) by lra. rewrite (RN_wd x 0 E), RN_0.
    apply RN_nonneg. lra.
Qed.

Lemma RN_err (x : Q) : 0 < x -> Qabs (RN x - x) <= pow2 (fexp x) * (1 # 2).
Proof.
  intros Hx. rewrite (RN_pos_spec x Hx).
  pose proof (pow2_pos (fexp x)) as P. set (s := pow2 (fexp x)) in *.
  pose proof (rne_err (x / s)) as H.
  apply Qabs_Qle_condition in H. apply Qabs_Qle_condition.
  assert (E : x == x / s * s) by (field; lra).
  set (q := x / s) in *. set (r := inject_Z (rne q)) in *.
  clearbody r q. nra.
Qed.

(** ** Means of small batches *)

Lemma ilog2_lt (x : Q) (e : Z) : 0 < x -> x < pow2 e -> (ilog2 x < e)%Z.
Proof.
  intros Hx H. destruct (ilog2_spec x Hx) as [L _].
  apply Qpower_lt_compat_l_inv with (q := 2); [|reflexivity].
  fold (pow2 (ilog2 x)). fold (pow2 e). lra.
Qed.

(** Below [2 ^ e] the floats are at most [2 ^ (e - 53)] apart. *)
Lemma RN_err_below (x : Q) (e : Z) :
  (-1021 <= e)%Z -> 0 <= x -> x < pow2 e -> Qabs (RN x - x) <= pow2 (e - 54).
Proof.
  intros He Hx Hlt. destruct (Qlt_le_dec 0 x) as [H|H].
  - apply Qle_trans with (pow2 (fexp x) * (1 # 2)); [now apply RN_err|].
    assert (Hl : (ilog2 x < e)%Z) by (apply ilog2_lt; [exact H|exact Hlt]).
    assert (Hf : pow2 (fexp x) <= pow2 (e - 53)) by (apply pow2_le; unfold fexp; lia).
    assert (E : pow2 (e - 53) == pow2 (e - 54) * 2).
    { replace (e - 53)%Z with (e - 54 + 1)%Z by lia. now rewrite pow2_add. }
    pose proof (pow2_pos (e - 54)). lra.
  - assert (E : x == 0) by lra. rewrite (RN_wd x 0 E), RN_0.
    apply Qabs_Qle_condition. pose proof (pow2_pos (e - 54)). lra.
Qed.

Lemma RN_err_below_4 (x : Q) : 0 <= x -> x < 4 -> Qabs (RN x - x) <= pow2 (-52).
Proof. intros Hx H4. apply (RN_err_below x 2); [lia|exact Hx|exact H4]. Qed.

Lemma inject_Z_pos (n : Z) : (0 < n)%Z -> 0 < inject_Z n.
Proof. intros H. change 0 with (inject_Z 0). now rewrite <- Zlt_Qlt. Qed.

(** A quotient of ints with a denominator below [2 ^ 51] that is not
    a half-integer stays away from it by more than a rounding error. *)
Lemma half_gap_above (s n f : Z) :
  (0 < n < 2 ^ 51)%Z ->
  inject_Z s / inject_Z n < inject_Z f + (1 # 2) ->
  inject_Z s / inject_Z n + pow2 (-52) < inject_Z f + (1 # 2).
Proof.
  intros Hn H. pose proof (inject_Z_pos n (proj1 Hn)) as Pn.
  set (N := inject_Z n) in *. set (S := inject_Z s) in *. set (F := inject_Z f) in *.
  assert (E : S / N * N == S) by (field; lra).
  assert (H1 : 2 * S < (2 * F + 1) * N) by nra.
  assert (H2 : (2 * s < (2 * f + 1) * n)%Z).
  { rewrite Zlt_Qlt, !inject_Z_mult, inject_Z_plus, inject_Z_mult. exact H1. }
  assert (H3 : (2 * s + 1 <= (2 * f + 1) * n)%Z) by lia.
  assert (H4 : 2 * S + 1 <= (2 * F + 1) * N).
  { rewrite Zle_Qle, inject_Z_plus, !inject_Z_mult, inject_Z_plus, inject_Z_mult in H3.
    exact H3. }
  assert (Hb : N <= inject_Z (2 ^ 51 - 1)) by (unfold N; rewrite <- Zle_Qle; lia).
  assert (Hp : pow2 (-52) * (2 * inject_Z (2 ^ 51 - 1)) < 1) by reflexivity.
  pose proof (pow2_pos (-52)) as Pp. set (eps := pow2 (-52)) in *.
  set (B := inject_Z (2 ^ 51 - 1)) in *. clearbody eps B.
  assert (H5 : eps * (2 * N) < 1) by nra.
  assert (H6 : (S / N + eps) * (2 * N) < (F + (1 # 2)) * (2 * N)) by nra.
  apply Qmult_lt_r in H6; [exact H6|lra].
Qed.

Lemma half_gap_below (s n f : Z) :
  (0 < n < 2 ^ 51)%Z ->
  inject_Z f + (1 # 2) < inject_Z s / inject_Z n ->
  inject_Z f + (1 # 2) < inject_Z s / inject_Z n - pow2 (-52).
Proof.
  intros Hn H. pose proof (inject_Z_pos n (proj1 Hn)) as Pn.
  set (N := inject_Z n) in *. set (S := inject_Z s) in *. set (F := inject_Z f) in *.
  assert (E : S / N * N == S) by (field; lra).
  assert (H1 : (2 * F + 1) * N < 2 * S) by nra.
  assert (H2 : ((2 * f + 1) * n < 2 * s)%Z).
  { rewrite Zlt_Qlt, !inject_Z_mult, inject_Z_plus, inject_Z_mult. exact H1. }
  assert (H3 : ((2 * f + 1) * n + 1 <= 2 * s)%Z) by lia.
  assert (H4 : (2 * F + 1) * N + 1 <= 2 * S).
  { rewrite Zle_Qle, inject_Z_plus, !inject_Z_mult, inject_Z_plus, inject_Z_mult in H3.
    exact H3. }
  assert (Hb : N <= inject_Z (2 ^ 51 - 1)) by (unfold N; rewrite <- Zle_Qle; lia).
  assert (Hp : pow2 (-52) * (2 * inject_Z (2 ^ 51 - 1)) < 1) by reflexivity.
  pose proof (pow2_pos (-52)) as Pp. set (eps := pow2 (-52)) in *.
  set (B := inject_Z (2 ^ 51 - 1)) in *. clearbody eps B.
  assert (H5 : eps * (2 * N) < 1) by nra.
  assert (H6 : (F + (1 # 2)) * (2 * N) < (S / N - eps) * (2 * N)) by nra.
  apply Qmult_lt_r in H6; [exact H6|lra].
Qed.

Lemma RN_small_int (k : Z) : (0 <= k <= 3)%Z -> RN (inject_Z k) == inject_Z k.
Proof.
  intros H. assert (C : k = 0%Z \/ k = 1%Z \/ k = 2%Z \/ k = 3%Z) by lia.
  destruct C as [-> | [-> | [-> | ->]]]; vm_compute; reflexivity.
Qed.

Lemma RN_small_half (k : Z) :
  (0 <= k <= 2)%Z -> RN (inject_Z k + (1 # 2)) == inject_Z k + (1 # 2).
Proof.
  intros H. assert (C : k = 0%Z \/ k = 1%Z \/ k = 2%Z) by lia.
  destruct C as [-> | [-> | ->]]; vm_compute; reflexivity.
Qed.

Lemma Qdiv_bounds (s n lo hi : Z) :
  (0 < n)%Z -> (lo * n <= s <= hi * n)%Z ->
  inject_Z lo <= inject_Z s / inject_Z n <= inject_Z hi.
Proof.
  intros Hn [H1 H2]. pose proof (inject_Z_pos n Hn) as Pn.
  rewrite Zle_Qle, inject_Z_mult in H1, H2.
  split.
  - apply Qle_shift_div_l; [exact Pn|exact H1].
  - apply Qle_shift_div_r; [exact Pn|exact H2].
Qed.

(** For a batch of fewer than [2 ^ 51] images, rounding the quotient to a
    float first does not change the integer it rounds to. *)
Lemma mean_round_exact (s n : Z) :
  (0 < n < 2 ^ 51)%Z -> (0 <= s <= 3 * n)%Z ->
  rne (RN (inject_Z s / inject_Z n)) = rne (inject_Z s / inject_Z n).
Proof.
  intros Hn Hs.
  destruct (Qdiv_bounds s n 0 3 (proj1 Hn)) as [X0 X3]; [lia|].
  change (inject_Z 0) with 0 in X0. change (inject_Z 3) with 3 in X3.
  pose proof (RN_err_below_4 _ X0 ltac:(lra)) as Err.
  apply Qabs_Qle_condition in Err.
  pose proof (half_gap_above s n) as Ga. pose proof (half_gap_below s n) as Gb.
  set (x := inject_Z s / inject_Z n) in *.
  destruct (Qfloor_bounds x) as [Fl Fu].
  assert (F0 : (0 <= Qfloor x)%Z).
  { rewrite <- (Qfloor_Z 0). now apply Qfloor_resp_le. }
  assert (F3 : (Qfloor x <= 3)%Z).
  { rewrite <- (Qfloor_Z 3). now apply Qfloor_resp_le. }
  destruct (rne_cases x) as [[H E]|[[H E]|[H E]]]; cbv zeta in *.
  - rewrite E. apply rne_unique.
    + pose proof (RN_mono (inject_Z (Qfloor x)) x) as M.
      rewrite (RN_small_int (Qfloor x)) in M by lia.
      assert (0 <= inject_Z (Qfloor x)) by (change 0 with (inject_Z 0); now rewrite <- Zle_Qle).
      specialize (M ltac:(assumption) Fl). lra.
    + specialize (Ga (Qfloor x) Hn ltac:(lra)). lra.
  - assert (Ex : x == inject_Z (Qfloor x) + (1 # 2)) by lra.
    assert (F2 : (Qfloor x <= 2)%Z).
    { destruct (Z_le_gt_dec (Qfloor x) 2) as [L|G]; [exact L|exfalso].
      assert (Qfloor x = 3%Z) as E3 by lia. rewrite E3 in Ex.
      change (inject_Z 3) with 3 in Ex. lra. }
    apply rne_wd. rewrite (RN_wd _ _ Ex), RN_small_half by lia. symmetry. exact Ex.
  - assert (F2 : (Qfloor x <= 2)%Z).
    { destruct (Z_le_gt_dec (Qfloor x) 2) as [L|G]; [exact L|exfalso].
      assert (Qfloor x = 3%Z) as E3 by lia. rewrite E3 in H.
      change (inject_Z 3) with 3 in H. lra. }
    rewrite E. apply rne_unique; rewrite inject_Z_succ.
    + specialize (Gb (Qfloor x) Hn ltac:(lra)). lra.
    + pose proof (RN_mono x (inject_Z (Qfloor x + 1)) X0) as M.
      rewrite (RN_small_int (Qfloor x + 1)), inject_Z_succ in M by lia.
      specialize (M ltac:(lra)). lra.
Qed.

(** ** The operations of the batch metrics *)

Lemma RN_between (x lo hi : Q) :
  0 <= lo -> RN lo == lo -> RN hi == hi -> lo <= x <= hi -> lo <= RN x <= hi.
Proof.
  intros H0 El Eh [Hl Hh]. split.
  - rewrite <- El. now apply RN_mono.
  - rewrite <- Eh. apply RN_mono; lra.
Qed.

Lemma overflows_small (r : Q) : 0 <= r -> r <= 100 -> overflows r = false.
Proof.
  intros H0 H1. unfold overflows.
  destruct (Qle_bool (pow2 1024) (Qabs r)) eqn:E; [|reflexivity].
  apply Qle_bool_iff in E. rewrite Qabs_pos in E by exact H0.
  assert (L : 100 < pow2 1024) by (vm_compute; reflexivity).
  lra.
Qed.

Lemma int_truediv_small (a b hi : Z) :
  (0 < b)%Z -> (0 <= a <= hi * b)%Z -> (0 <= hi <= 3)%Z ->
  int_truediv a b = Ok (Fin (RN (inject_Z a / inject_Z b)))
  /\ 0 <= RN (inject_Z a / inject_Z b) <= inject_Z hi.
Proof.
  intros Hb Ha Hhi.
  assert (B : 0 <= RN (inject_Z a / inject_Z b) <= inject_Z hi).
  { apply RN_between; [lra|now rewrite RN_0|now apply RN_small_int|].
    apply (Qdiv_bounds a b 0 hi); [exact Hb|lia]. }
  split; [|exact B]. unfold int_truediv.
  assert (E : (b =? 0)%Z = false) by (apply Z.eqb_neq; lia). rewrite E.
  rewrite overflows_small; [reflexivity|tauto|].
  assert (inject_Z hi <= 3) by (change 3 with (inject_Z 3); rewrite <- Zle_Qle; lia).
  lra.
Qed.

Lemma float_mul_int_100 (q : Q) :
  0 <= q <= 1 ->
  float_mul_int (Fin q) 100 = Ok (Fin (RN (q * 100)))
  /\ 0 <= RN (q * 100) <= 100.
Proof.
  intros Hq.
  assert (B : 0 <= RN (q * 100) <= 100).
  { apply RN_between; [lra|now rewrite RN_0|vm_compute; reflexivity|lra]. }
  split; [|exact B]. unfold float_mul_int.
  assert (E : float_of_int 100 = Ok (Fin 100)) by (vm_compute; reflexivity).
  rewrite E. unfold float_mul, float_of_Q.
  rewrite overflows_small; [reflexivity|tauto|tauto].
Qed.

Lemma round_decimal_bounds (p : Q) :
  0 <= p <= 100 -> 0 <= inject_Z (rne (p * 100)) / 100 <= 100.
Proof.
  intros Hp.
  assert (L : (0 <= rne (p * 100))%Z).
  { rewrite <- (rne_Z 0). apply rne_mono. change (inject_Z 0) with 0. lra. }
  assert (U : (rne (p * 100) <= 10000)%Z).
  { rewrite <- (rne_Z 10000). apply rne_mono. change (inject_Z 10000) with 10000. lra. }
  rewrite Zle_Qle in L, U. change (inject_Z 0) with 0 in L.
  change (inject_Z 10000) with 10000 in U.
  split; [apply Qle_shift_div_l|apply Qle_shift_div_r]; lra.
Qed.

Lemma float_round_ndigits_2 (p : Q) :
  0 <= p <= 100 ->
  float_round_ndigits (Fin p) 2 = Ok (Fin (RN (inject_Z (rne (p * 100)) / 100)))
  /\ 0 <= RN (inject_Z (rne (p * 100)) / 100) <= 100.
Proof.
  intros Hp.
  assert (B : 0 <= RN (inject_Z (rne (p * 100)) / 100) <= 100).
  { apply RN_between; [lra|now rewrite RN_0|vm_compute; reflexivity|].
    now apply round_decimal_bounds. }
  split; [|exact B]. unfold float_round_ndigits.
  change (NDIGITS_MAX <? 2)%Z with false. change (2 <? NDIGITS_MIN)%Z with false.
  change (10 ^ 2) with 100. cbv iota zeta.
  rewrite overflows_small; [reflexivity|tauto|tauto].
Qed.

(** The formula of the percent severity index stays in range and within
    half a hundredth, up to the rounding of the float operations, of the
    exact percentage. *)
Lemma psi_formula_bounds (s n : Z) :
  (0 < n)%Z -> (0 <= s <= 3 * n)%Z -> 0 <= psi_formula s n <= 100.
Proof.
  intros Hn Hs. unfold psi_formula.
  destruct (int_truediv_small s (3 * n) 1) as [_ B1]; [lia|lia|lia|].
  change (inject_Z 1) with 1 in B1.
  destruct (float_mul_int_100 _ B1) as [_ B2].
  destruct (float_round_ndigits_2 _ B2) as [_ B3]. exact B3.
Qed.

Lemma psi_formula_accuracy (s n : Z) :
  (0 < n)%Z -> (0 <= s <= 3 * n)%Z ->
  Qabs (psi_formula s n - 100 * inject_Z s / inject_Z (3 * n))
  <= (1 # 200) + pow2 (-44).
Proof.
  intros Hn Hs. unfold psi_formula.
  destruct (int_truediv_small s (3 * n) 1) as [_ B1]; [lia|lia|lia|].
  change (inject_Z 1) with 1 in B1.
  destruct (Qdiv_bounds s (3 * n) 0 1) as [X0 X1]; [lia|lia|].
  change (inject_Z 0) with 0 in X0. change (inject_Z 1) with 1 in X1.
  assert (Ex : 100 * inject_Z s / inject_Z (3 * n)
               == 100 * (inject_Z s / inject_Z (3 * n))).
  { unfold Qdiv. ring. }
  rewrite Ex. clear Ex.
  pose proof (RN_err_below_4 _ X0 ltac:(lra)) as E1.
  set (x := inject_Z s / inject_Z (3 * n)) in *.
  set (ratio := RN x) in *.
  destruct (float_mul_int_100 _ B1) as [_ B2].
  assert (P7 : 100 < pow2 7) by (vm_compute; reflexivity).
  pose proof (RN_err_below (ratio * 100) 7 ltac:(lia) ltac:(lra) ltac:(lra)) as E2.
  set (percent := RN (ratio * 100)) in *.
  pose proof (round_decimal_bounds _ B2) as B3.
  pose proof (rne_err (percent * 100)) as E3.
  set (d := inject_Z (rne (percent * 100))) in *.
  pose proof (RN_err_below (d / 100) 7 ltac:(lia) ltac:(lra) ltac:(lra)) as E4.
  set (psi := RN (d / 100)) in *.
  assert (Ed : d / 100 * 100 == d) by (field).
  set (dd := d / 100) in *.
  assert (K1 : pow2 (-52) * 164 <= pow2 (-44)) by (vm_compute; discriminate).
  assert (K2 : pow2 (7 - 54) == pow2 (-52) * 32) by (vm_compute; reflexivity).
  rewrite K2 in E2, E4.
  pose proof (pow2_pos (-52)) as Pp.
  set (eps := pow2 (-52)) in *. set (big := pow2 (-44)) in *.
  clearbody eps big psi dd d percent ratio x.
  apply Qabs_Qle_condition in E1, E2, E3, E4. apply Qabs_Qle_condition.
  lra.
Qed.

(** A quotient of ints that is exactly a half-integer is a float, and
    rounds to the even neighbour. *)
Lemma half_integer_mean_rounds_to_even (s n k : Z) :
  (0 < n)%Z -> (0 <= s <= 3 * n)%Z -> (2 * s = (2 * k + 1) * n)%Z ->
  rne (RN (inject_Z s / inject_Z n)) = if Z.even k then k else (k + 1)%Z.
Proof.
  intros Hn Hs Hk. pose proof (inject_Z_pos n Hn) as Pn.
  assert (K : (0 <= k <= 2)%Z) by nia.
  assert (Ex : inject_Z s / inject_Z n == inject_Z k + (1 # 2)).
  { apply (f_equal inject_Z) in Hk.
    rewrite !inject_Z_mult, inject_Z_plus, inject_Z_mult in Hk.
    change (inject_Z 2) with 2 in Hk. change (inject_Z 1) with 1 in Hk.
    assert (Hk' : 2 * inject_Z s == (2 * inject_Z k + 1) * inject_Z n)
      by (rewrite Hk; reflexivity).
    field_simplify_eq; [lra|lra]. }
  rewrite (RN_wd _ _ Ex).
  assert (C : k = 0%Z \/ k = 1%Z \/ k = 2%Z) by lia.
  destruct C as [-> | [-> | ->]]; vm_compute; reflexivity.
Qed.

(** On every batch of up to 32 images the model computes the floats that
    the IEEE-754 specification of the Standard Library computes. *)
Example RN_agrees_with_SpecFloat : all_batches_up_to 32 metrics_agree = true.
Proof. vm_compute. reflexivity. Qed.

End FloatArithmetic.

(* ================================================================== *)
(** * The weather-risk classifier                                      *)
(* ================================================================== *)

Section WeatherRisk.

Lemma float_le_spec (x y : pyfloat) : float_le x y = true <-> num_le x y.
Proof.
  unfold float_le. split.
  - destruct x as [a|[|]|], y as [b|[|]|]; cbn -[Qcompare]; try discriminate;
      try (intros _; constructor; discriminate).
    destruct (Qcompare a b) eqn:E; try discriminate; intros _; constructor.
    + apply Qeq_alt in E. rewrite E. apply Qle_refl.
    + apply Qlt_alt in E. now apply Qlt_le_weak.
  - intros H. destruct H as [a b H|y H|x H].
    + change (float_compare (Fin a) (Fin b)) with (Some (Qcompare a b)).
      destruct (Qcompare a b) eqn:E; try reflexivity.
      apply Qgt_alt in E. exfalso. exact (Qlt_not_le _ _ E H).
    + destruct y as [b|[|]|]; cbn; congruence.
    + destruct x as [a|[|]|]; cbn; congruence.
Qed.

Lemma float_lt_spec (x y : pyfloat) : float_lt x y = true <-> num_lt x y.
Proof.
  unfold float_lt. split.
  - destruct x as [a|[|]|], y as [b|[|]|]; cbn -[Qcompare]; try discriminate;
      try (intros _; now constructor).
    destruct (Qcompare a b) eqn:E; try discriminate.
    intros _. constructor. now apply Qlt_alt in E.
  - intros H. destruct H as [a b H| | |]; try reflexivity.
    change (float_compare (Fin a) (Fin b)) with (Some (Qcompare a b)).
    assert (E : Qcompare a b = Lt) by now apply Qlt_alt.
    now rewrite E.
Qed.

Lemma float_ge_spec (x y : pyfloat) : float_ge x y = true <-> num_le y x.
Proof. apply float_le_spec. Qed.

Lemma high_rule_spec (t h w : pyfloat) :
  (float_le (int 25) t && float_le t (int 30)
   && float_ge h (int 95) && float_ge w (int 12))
  || (float_le (int 22) t && float_le t (int 30)
      && float_ge h (int 95) && float_ge w (int 6)) = true
  <-> high_rule t h w.
Proof.
  unfold high_rule, high_classic_rule, high_rainsun_rule.
  rewrite orb_true_iff, !andb_true_iff, !float_le_spec, !float_ge_spec. tauto.
Qed.

Lemma low_rule_spec (t h w : pyfloat) :
  float_lt t (int 22) || float_lt h (int 85) || float_lt w (int 6) = true
  <-> low_rule t h w.
Proof.
  unfold low_rule. rewrite !orb_true_iff, !float_lt_spec. tauto.
Qed.

(** The two rules never hold together, so the order in which the code
    tests them cannot be observed. *)
Lemma num_lt_not_le (x y : pyfloat) : num_lt x y -> num_le y x -> False.
Proof.
  intros H1 H2. destruct H1; inversion H2; subst; try congruence.
  eapply Qlt_not_le; eassumption.
Qed.

Lemma num_le_trans (x y z : pyfloat) : num_le x y -> num_le y z -> num_le x z.
Proof.
  intros H1 H2. destruct H1; inversion H2; subst; try congruence;
    try (constructor; congruence).
  constructor. eapply Qle_trans; eassumption.
Qed.

Lemma high_low_exclusive (t h w : pyfloat) : high_rule t h w -> low_rule t h w -> False.
Proof.
  assert (L1 : num_le (int 22) (int 25)) by (constructor; discriminate).
  assert (L2 : num_le (int 6) (int 12)) by (constructor; discriminate).
  intros [(A & B & C & D)|(A & B & C & D)] [E|[E|E]].
  - eapply num_lt_not_le; [exact E|]. eapply num_le_trans; eassumption.
  - inversion E; subst; inversion C; subst.
    assert ((85 <= 95)%Q) by discriminate. 
    match goal with H1 : (_ < inject_Z 85)%Q, H2 : (inject_Z 95 <= _)%Q |- _ =>
      change (inject_Z 85) with 85%Q in H1; change (inject_Z 95) with 95%Q in H2; lra end.
  - eapply num_lt_not_le; [exact E|]. eapply num_le_trans; eassumption.
  - eapply num_lt_not_le; [exact E|exact A].
  - inversion E; subst; inversion C; subst.
    match goal with H1 : (_ < inject_Z 85)%Q, H2 : (inject_Z 95 <= _)%Q |- _ =>
      change (inject_Z 85) with 85%Q in H1; change (inject_Z 95) with 95%Q in H2; lra end.
  - eapply num_lt_not_le; [exact E|exact D].
Qed.

(** C1: the classifier answers "High" exactly when one of the two
    high-risk rules holds; failing that, "Low" exactly when the low-risk
    rule holds; failing both, "Medium".  The four sample readings of the
    specification are classified High, High, Low and Medium. *)
Theorem weather_risk_rules (t h w : pyfloat) :
  (rule_service._weather_risk t h w = "High" <-> high_rule t h w)
  /\ (~ high_rule t h w ->
      (rule_service._weather_risk t h w = "Low" <-> low_rule t h w))
  /\ (~ high_rule t h w -> ~ low_rule t h w ->
      rule_service._weather_risk t h w = "Medium")
  /\ rule_service._weather_risk (Fin 27) (Fin 96) (Fin 13) = "High"
  /\ rule_service._weather_risk (Fin 23) (Fin 96) (Fin 7) = "High"
  /\ ~ high_classic_rule (Fin 23) (Fin 96) (Fin 7)
  /\ rule_service._weather_risk (Fin 18) (Fin 99) (Fin 20) = "Low"
  /\ rule_service._weather_risk (Fin 24) (Fin 90) (Fin 8) = "Medium".
Proof.
  assert (Ex : ~ high_classic_rule (Fin 23) (Fin 96) (Fin 7)).
  { intros (_ & _ & _ & D). inversion D; subst.
    match goal with H : (_ <= _)%Q |- _ => vm_compute in H; congruence end. }
  pose proof (high_rule_spec t h w) as HH.
  pose proof (low_rule_spec t h w) as HL.
  unfold rule_service._weather_risk. cbv zeta.
  destruct (_ || _) eqn:EH in HH |- *;
    [|destruct (_ || _) eqn:EL in HL |- *].
  - destruct HH as [HH _]. specialize (HH eq_refl).
    repeat split; try reflexivity; try exact Ex; try tauto; try discriminate.
  - assert (NH : ~ high_rule t h w) by (intros N; apply HH in N; discriminate).
    destruct HL as [HL _]. specialize (HL eq_refl).
    repeat split; try reflexivity; try exact Ex; try tauto; try discriminate.
  - assert (NH : ~ high_rule t h w) by (intros N; apply HH in N; discriminate).
    assert (NL : ~ low_rule t h w) by (intros N; apply HL in N; discriminate).
    repeat split; try reflexivity; try exact Ex; try tauto; try discriminate.
Qed.

End WeatherRisk.

(* ================================================================== *)
(** * The advisor                                                      *)
(* ================================================================== *)

Section Advisor.

Lemma preserves_ret {A : Type} (a : A) : preserves_store (ret a).
Proof. intros s. reflexivity. Qed.

Lemma preserves_lift {A : Type} (r : result A) : preserves_store (lift r).
Proof. intros s. reflexivity. Qed.

Lemma preserves_load {A : Type} (name : store -> A) : preserves_store (load name).
Proof. intros s. reflexivity. Qed.

Lemma preserves_bind {A B : Type} (m : Py A) (k : A -> Py B) :
  preserves_store m -> (forall a, preserves_store (k a)) -> preserves_store (bind m k).
Proof.
  intros Hm Hk s. unfold bind. specialize (Hm s).
  destruct (m s) as [[a|e] s']; cbn in Hm; subst s'; [apply Hk|reflexivity].
Qed.

Lemma get_recommendation_preserves_store (i : Z) (h t w : pyfloat) :
  preserves_store (rule_service.get_recommendation i h t w).
Proof.
  unfold rule_service.get_recommendation.
  repeat (first [apply preserves_bind; [|intros ?]
                |apply preserves_load|apply preserves_lift|apply preserves_ret]).
Qed.

Lemma weather_risk_range (t h w : pyfloat) :
  rule_service._weather_risk t h w = "High"
  \/ rule_service._weather_risk t h w = "Low"
  \/ rule_service._weather_risk t h w = "Medium".
Proof.
  unfold rule_service._weather_risk. cbv zeta.
  destruct (_ || _); [tauto|]. destruct (_ || _); tauto.
Qed.

Lemma small_index_cases (i : Z) :
  (0 <= i <= 3)%Z -> i = 0%Z \/ i = 1%Z \/ i = 2%Z \/ i = 3%Z.
Proof. lia. Qed.

(** On the modules as loaded, an index in range selects a label and both
    table lookups succeed, with non-empty texts. *)
Lemma get_recommendation_in_range (i : Z) (h t w : pyfloat) :
  (0 <= i <= 3)%Z ->
  exists r,
    rule_service.get_recommendation i h t w initial_store = (Ok r, initial_store)
    /\ rule_service.CLASS_LABELS !! Z.to_nat i = Some (rule_service.severity_label r)
    /\ rule_service.weather_risk r = rule_service._weather_risk t h w
    /\ rule_service._RULE_MATRIX
         !! (rule_service.severity_label r, rule_service.weather_risk r)
       = Some (rule_service.advice r)
    /\ rule_service._INFO_MATRIX
         !! (rule_service.severity_label r, rule_service.weather_risk r)
       = Some (rule_service.info r)
    /\ rule_service.advice r <> ""
    /\ rule_service.info r <> "".
Proof.
  intros Hi.
  pose proof (get_recommendation_preserves_store i h t w initial_store) as P.
  destruct (rule_service.get_recommendation i h t w initial_store)
    as [res s'] eqn:E.
  cbn in P. subst s'. apply (f_equal fst) in E. cbn [fst] in E.
  unfold rule_service.get_recommendation in E.
  apply small_index_cases in Hi. destruct Hi as [-> | [-> | [-> | ->]]];
    destruct (weather_risk_range t h w) as [W | [W | W]]; rewrite W in *;
    vm_compute in E; subst res;
    eexists; (split; [reflexivity|]);
    (split; [vm_compute; reflexivity|]); (split; [reflexivity|]);
    (split; [vm_compute; reflexivity|]); (split; [vm_compute; reflexivity|]);
    split; discriminate.
Qed.


Lemma list_getitem_out_of_range {A : Type} (l : list A) (i : Z) :
  (i < - Z.of_nat (length l) \/ Z.of_nat (length l) <= i)%Z ->
  list_getitem l i = Raise IndexError.
Proof.
  intros H. unfold list_getitem. cbv zeta.
  destruct (Z.ltb_spec i 0) as [Hneg|Hpos].
  - assert (E : (i + Z.of_nat (length l) <? 0)%Z = true) by (apply Z.ltb_lt; lia).
    now rewrite E.
  - assert (E : (i <? 0)%Z = false) by (apply Z.ltb_ge; lia).
    rewrite ?E. rewrite lookup_ge_None_2; [reflexivity|lia].
Qed.

Lemma list_getitem_negative {A : Type} (l : list A) (i : Z) :
  (- Z.of_nat (length l) <= i < 0)%Z ->
  list_getitem l i = list_getitem l (i + Z.of_nat (length l)).
Proof.
  intros H. unfold list_getitem. cbv zeta.
  assert (E1 : (i <? 0)%Z = true) by (apply Z.ltb_lt; lia).
  assert (E2 : (i + Z.of_nat (length l) <? 0)%Z = false) by (apply Z.ltb_ge; lia).
  now rewrite E1, !E2.
Qed.

(** C6, as the code has it: an index below -4 or above 3 makes the label
    lookup raise IndexError before any table is read; an index from -4 to
    -1 counts from the end of the label list and is served like the index
    plus 4; and no call on the loaded modules fails in any other way, so
    no table lookup ever misses. *)
Theorem get_recommendation_index_domain (i : Z) (h t w : pyfloat) :
  ((i < -4 \/ 3 < i)%Z ->
     rule_service.get_recommendation i h t w initial_store
     = (Raise IndexError, initial_store))
  /\ ((-4 <= i < 0)%Z ->
      rule_service.get_recommendation i h t w initial_store
      = rule_service.get_recommendation (i + 4) h t w initial_store)
  /\ (forall e : exn,
        (rule_service.get_recommendation i h t w initial_store).1 = Raise e ->
        e = IndexError /\ (i < -4 \/ 3 < i)%Z).
Proof.
  assert (P1 : (i < -4 \/ 3 < i)%Z ->
     rule_service.get_recommendation i h t w initial_store
     = (Raise IndexError, initial_store)).
  { intros H. unfold rule_service.get_recommendation, bind, load, lift.
    cbn [rule_service_CLASS_LABELS initial_store].
    rewrite list_getitem_out_of_range; [reflexivity|].
    unfold rule_service.CLASS_LABELS. cbn [length]. lia. }
  assert (P2 : (-4 <= i < 0)%Z ->
      rule_service.get_recommendation i h t w initial_store
      = rule_service.get_recommendation (i + 4) h t w initial_store).
  { intros H. unfold rule_service.get_recommendation, bind, load, lift.
    cbn [rule_service_CLASS_LABELS initial_store].
    rewrite (list_getitem_negative rule_service.CLASS_LABELS i); [reflexivity|].
    unfold rule_service.CLASS_LABELS. cbn [length]. lia. }
  split; [exact P1|]. split; [exact P2|].
  intros e He.
  destruct (Z_lt_le_dec i (-4)) as [L|L]; [rewrite P1 in He by lia|].
  { cbn in He. split; [congruence|lia]. }
  destruct (Z_lt_le_dec 3 i) as [G|G]; [rewrite P1 in He by lia|].
  { cbn in He. split; [congruence|lia]. }
  exfalso. destruct (Z_lt_le_dec i 0) as [N|N].
  - rewrite P2 in He by lia.
    destruct (get_recommendation_in_range (i + 4) h t w) as (r & E & _); [lia|].
    rewrite E in He. discriminate.
  - destruct (get_recommendation_in_range i h t w) as (r & E & _); [lia|].
    rewrite E in He. discriminate.
Qed.

(** C6 fails as stated: index -1 is outside [0,3], yet the call succeeds
    and returns the advisory of label "Severe". *)
Lemma get_recommendation_accepts_negative_index :
  ~ (0 <= -1 <= 3)%Z
  /\ (rule_service.get_recommendation (-1) (Fin 90) (Fin 24) (Fin 8)
        initial_store).1 <> Raise ConfigurationError
  /\ exists r,
      (rule_service.get_recommendation (-1) (Fin 90) (Fin 24) (Fin 8)
         initial_store).1 = Ok r
      /\ rule_service.severity_label r = "Severe"
      /\ rule_service.weather_risk r = "Medium".
Proof.
  split; [lia|]. split.
  - vm_compute. discriminate.
  - eexists. split; [vm_compute; reflexivity|]. split; reflexivity.
Qed.

(** C9: a call leaves the module state as it found it, and its result is
    the same whatever call was served before it. *)
Theorem get_recommendation_pure
    (s : store) (i i' : Z) (h t w h' t' w' : pyfloat) :
  (rule_service.get_recommendation i h t w s).2 = s
  /\ (rule_service.get_recommendation i h t w
        (rule_service.get_recommendation i' h' t' w' s).2).1
     = (rule_service.get_recommendation i h t w s).1
  /\ rule_service.get_recommendation i h t w
       (rule_service.get_recommendation i h t w s).2
     = rule_service.get_recommendation i h t w s.
Proof.
  split; [apply get_recommendation_preserves_store|].
  split; now rewrite get_recommendation_preserves_store.
Qed.

End Advisor.

(* ================================================================== *)
(** * The route                                                        *)
(* ================================================================== *)

Section RouteProperties.

Variable UploadFile : Type.
Variable Image : Type.
Variable open_rgb : UploadFile -> result Image.
Variable predict : Image -> Z.

Local Abbreviation per_image_inference :=
  (core.per_image_inference UploadFile Image open_rgb predict).
Local Abbreviation getPrescription :=
  (core.getPrescription UploadFile Image open_rgb predict).
Local Abbreviation classified := (classified open_rgb predict).

Lemma list_getitem_in_range {A : Type} (l : list A) (i : Z) :
  (0 <= i < Z.of_nat (length l))%Z ->
  exists a, list_getitem l i = Ok a /\ l !! Z.to_nat i = Some a.
Proof.
  intros H. unfold list_getitem. cbv zeta.
  assert (E : (i <? 0)%Z = false) by (apply Z.ltb_ge; lia). rewrite !E.
  destruct (l !! Z.to_nat i) as [a|] eqn:L; [now exists a|].
  apply lookup_ge_None_1 in L. lia.
Qed.

Lemma sum_classes_bounds (classes : list Z) :
  Forall severity_class classes ->
  (0 <= sum_classes classes <= 3 * Z.of_nat (length classes))%Z.
Proof.
  induction 1 as [|c classes Hc _ IH]; cbn [sum_classes foldr length].
  - lia.
  - unfold severity_class in Hc. fold (sum_classes classes). lia.
Qed.

(** The loop appends one prediction per file and adds up the classes. *)
Lemma per_image_inference_classified (files : list UploadFile) (classes : list Z) :
  classified files classes -> Forall severity_class classes ->
  forall (st : store) (i : Z) (predictions : list core.prediction)
         (severity_sum : Z),
  core_CLASS_LABELS st = core.CLASS_LABELS ->
  exists predictions',
    per_image_inference files i predictions severity_sum st
    = (Ok (predictions ++ predictions', (severity_sum + sum_classes classes)%Z),
       st)
    /\ length predictions' = length classes.
Proof.
  induction 1 as [|file c files classes (img & Ho & Hp) _ IH];
    intros Hall st i predictions severity_sum Hst.
  - exists []. cbn [core.per_image_inference sum_classes foldr length].
    rewrite app_nil_r, Z.add_0_r. split; reflexivity.
  - inversion Hall as [|? ? Hc Hall']; subst.
    cbn [core.per_image_inference]. unfold bind at 1, lift at 1. rewrite Ho.
    unfold bind at 1, load at 1. rewrite Hst.
    destruct (list_getitem_in_range core.CLASS_LABELS (predict img))
      as (label & Hl & _).
    { unfold severity_class in Hc. unfold core.CLASS_LABELS. cbn [length]. lia. }
    unfold bind at 1, lift at 1. rewrite Hl.
    destruct (IH Hall' st (i + 1)%Z
                (predictions
                 ++ [ {| core.idx := i; core.severity := predict img;
                         core.label := label |} ])
                (severity_sum + predict img)%Z Hst)
      as (predictions' & E & Hlen).
    eexists (_ :: predictions'). rewrite E. split.
    + rewrite <- app_assoc. cbn [sum_classes foldr app].
      fold (sum_classes classes). now rewrite Z.add_assoc.
    + cbn [length]. now rewrite Hlen.
Qed.

(** The response to a non-empty batch of classified images. *)
Lemma getPrescription_classified (files : list UploadFile) (classes : list Z)
    (humidity temperature wetness lat lon : pyfloat) :
  classified files classes -> classes <> [] -> Forall severity_class classes ->
  let s := sum_classes classes in
  let n := Z.of_nat (length classes) in
  let overall_idx := rne (RN (inject_Z s / inject_Z n)) in
  exists (label : string) (rec : rule_service.recommendation),
    (0 <= overall_idx <= 3)%Z
    /\ core.CLASS_LABELS !! Z.to_nat overall_idx = Some label
    /\ rule_service.get_recommendation overall_idx humidity temperature wetness
         initial_store = (Ok rec, initial_store)
    /\ getPrescription files humidity temperature wetness lat lon initial_store
       = (Ok {| core.percent_severity_index := Fin (psi_formula s n);
                core.overall_label := label;
                core.overall_severity_index := overall_idx;
                core.weather :=
                  {| core.humidity := humidity;
                     core.temperature := temperature;
                     core.wetness := wetness;
                     core.lat := lat;
                     core.lon := lon |};
                core.recommendation := rec |},
          initial_store).
Proof.
  intros Hcl Hne Hall s n overall_idx.
  assert (Hn : (0 < n)%Z).
  { destruct classes; [congruence|unfold n; cbn [length]; lia]. }
  pose proof (sum_classes_bounds classes Hall) as Hs. fold s n in Hs.
  destruct (int_truediv_small s (3 * n) 1) as [E1 B1]; [lia|lia|lia|].
  change (inject_Z 1) with 1%Q in B1.
  destruct (float_mul_int_100 _ B1) as [E2 B2].
  destruct (float_round_ndigits_2 _ B2) as [E3 _].
  destruct (int_truediv_small s n 3) as [E4 B4]; [lia|lia|lia|].
  assert (Hi : (0 <= overall_idx <= 3)%Z).
  { unfold overall_idx. split.
    - rewrite <- (rne_Z 0). apply rne_mono. tauto.
    - rewrite <- (rne_Z 3). apply rne_mono. tauto. }
  destruct (list_getitem_in_range core.CLASS_LABELS overall_idx)
    as (label & E5 & L5); [unfold core.CLASS_LABELS; cbn [length]; lia|].
  destruct (get_recommendation_in_range overall_idx humidity temperature wetness Hi)
    as (rec & E6 & _).
  exists label, rec. split; [exact Hi|]. split; [exact L5|]. split; [exact E6|].
  destruct (per_image_inference_classified files classes Hcl Hall
              initial_store 0 [] 0 eq_refl)
    as (predictions & Eloop & Hlen).
  unfold core.getPrescription. unfold bind at 1. rewrite Eloop.
  cbn [fst snd app]. rewrite Hlen, Z.add_0_l. fold s n.
  change core.MAX_SEVERITY_SCORE with 3%Z.
  unfold bind at 1, lift at 1. rewrite E1.
  unfold bind at 1, lift at 1. rewrite E2.
  unfold bind at 1, lift at 1. rewrite E3.
  unfold bind at 1, lift at 1. rewrite E4.
  unfold bind at 1, lift at 1. cbn [float_round]. fold overall_idx.
  unfold bind at 1, load at 1. cbn [core_CLASS_LABELS initial_store].
  unfold bind at 1, lift at 1. rewrite E5.
  unfold bind at 1. rewrite E6. unfold ret, psi_formula. reflexivity.
Qed.

Lemma weather_risk_low (t h w : pyfloat) :
  ~ high_rule t h w -> low_rule t h w ->
  rule_service._weather_risk t h w = "Low".
Proof.
  intros NH L. unfold rule_service._weather_risk. cbv zeta.
  destruct (_ || _) eqn:EH.
  - apply high_rule_spec in EH. contradiction.
  - apply low_rule_spec in L. now rewrite L.
Qed.

Lemma negative_humidity_low (t h w : pyfloat) :
  num_lt h (int 0) -> rule_service._weather_risk t h w = "Low".
Proof.
  intros H. inversion H as [a b Hab| | |]; subst.
  - change (inject_Z 0) with 0%Q in Hab. apply weather_risk_low.
    + intros [(_ & _ & C & _)|(_ & _ & C & _)]; inversion C; subst;
        match goal with H1 : (inject_Z 95 <= _)%Q |- _ =>
          change (inject_Z 95) with 95%Q in H1; lra end.
    + right; left. constructor. change (inject_Z 85) with 85%Q. lra.
  - apply weather_risk_low.
    + intros [(_ & _ & C & _)|(_ & _ & C & _)]; inversion C; congruence.
    + right; left. constructor.
Qed.


(** C3: for a non-empty batch of images whose classes are in [0,3] the
    route answers, and the percent severity index of the response is
    [round(sum / (3 * N) * 100, 2)] computed in binary64 arithmetic; it
    lies between 0 and 100, is within half a hundredth (and the float
    rounding, at most [2 ^ -44]) of the exact percentage, and for a single
    image of class 0, 1, 2 or 3 it is the float 0.0, 33.33, 66.67 or
    100.0. *)
Theorem percent_severity_index_spec
    (files : list UploadFile) (classes : list Z)
    (humidity temperature wetness lat lon : pyfloat) :
  classified files classes -> classes <> [] -> Forall severity_class classes ->
  exists (r : core.response) (psi : Q),
    getPrescription files humidity temperature wetness lat lon initial_store
      = (Ok r, initial_store)
    /\ core.percent_severity_index r = Fin psi
    /\ psi = psi_formula (sum_classes classes) (Z.of_nat (length classes))
    /\ (0 <= psi <= 100)%Q
    /\ (Qabs (psi - 100 * inject_Z (sum_classes classes)
                     / inject_Z (3 * Z.of_nat (length classes)))
        <= (1 # 200) + pow2 (-44))%Q
    /\ (classes = [0%Z] -> Fin psi = float_literal 0)
    /\ (classes = [1%Z] -> Fin psi = float_literal (3333 # 100))
    /\ (classes = [2%Z] -> Fin psi = float_literal (6667 # 100))
    /\ (classes = [3%Z] -> Fin psi = float_literal 100).
Proof.
  intros Hcl Hne Hall.
  destruct (getPrescription_classified files classes humidity temperature
              wetness lat lon Hcl Hne Hall) as (label & rec & _ & _ & _ & E).
  pose proof (sum_classes_bounds classes Hall) as Hs.
  assert (Hn : (0 < Z.of_nat (length classes))%Z).
  { destruct classes; [congruence|cbn [length]; lia]. }
  eexists _, _. split; [exact E|]. split; [reflexivity|]. split; [reflexivity|].
  split; [now apply psi_formula_bounds|].
  split; [now apply psi_formula_accuracy|].
  repeat split; intros ->; vm_compute; reflexivity.
Qed.

(** C4: for a non-empty batch of images whose classes are in [0,3] the
    overall severity index is the float mean of the classes rounded to an
    integer, ties to even; it lies in [0,3], so the label lookup cannot go
    out of range, and the overall label is the label at that index.  For a
    batch of fewer than [2 ^ 51] images the index is the exact mean rounded
    to the nearest integer.  Classes [0,3,0] give index 1, label "Mild". *)
Theorem overall_severity_index_spec
    (files : list UploadFile) (classes : list Z)
    (humidity temperature wetness lat lon : pyfloat) :
  classified files classes -> classes <> [] -> Forall severity_class classes ->
  exists r : core.response,
    getPrescription files humidity temperature wetness lat lon initial_store
      = (Ok r, initial_store)
    /\ core.overall_severity_index r = rne (RN (mean_class classes))
    /\ (0 <= core.overall_severity_index r <= 3)%Z
    /\ core.CLASS_LABELS !! Z.to_nat (core.overall_severity_index r)
       = Some (core.overall_label r)
    /\ ((Z.of_nat (length classes) < 2 ^ 51)%Z ->
        core.overall_severity_index r = rne (mean_class classes)
        /\ (Qabs (inject_Z (core.overall_severity_index r) - mean_class classes)
            <= 1 # 2)%Q)
    /\ (classes = [0; 3; 0]%Z ->
        core.overall_severity_index r = 1%Z /\ core.overall_label r = "Mild").
Proof.
  intros Hcl Hne Hall.
  destruct (getPrescription_classified files classes humidity temperature
              wetness lat lon Hcl Hne Hall) as (label & rec & Hi & L & _ & E).
  pose proof (sum_classes_bounds classes Hall) as Hs.
  assert (Hn : (0 < Z.of_nat (length classes))%Z).
  { destruct classes; [congruence|cbn [length]; lia]. }
  eexists. split; [exact E|]. cbn [core.overall_severity_index core.overall_label].
  fold (mean_class classes) in *.
  split; [reflexivity|]. split; [exact Hi|]. split; [exact L|]. split.
  - intros Hsmall.
    assert (Ex : rne (RN (mean_class classes)) = rne (mean_class classes)).
    { apply mean_round_exact; lia. }
    rewrite Ex. split; [reflexivity|apply rne_err].
  - intros ->. split; [vm_compute; reflexivity|].
    revert L. vm_compute. congruence.
Qed.

(** C7, as the code has it: the route checks no numeric field.  A request
    with a non-empty batch of images whose classes are in [0,3] is answered
    for every humidity, temperature, wetness, latitude and longitude; the
    readings are echoed as given and the risk tier is the classifier's
    verdict on them; a negative humidity makes the tier "Low". *)
Theorem getPrescription_accepts_any_reading
    (files : list UploadFile) (classes : list Z)
    (humidity temperature wetness lat lon : pyfloat) :
  classified files classes -> classes <> [] -> Forall severity_class classes ->
  exists r : core.response,
    getPrescription files humidity temperature wetness lat lon initial_store
      = (Ok r, initial_store)
    /\ core.weather r
       = {| core.humidity := humidity; core.temperature := temperature;
            core.wetness := wetness; core.lat := lat; core.lon := lon |}
    /\ rule_service.weather_risk (core.recommendation r)
       = rule_service._weather_risk temperature humidity wetness
    /\ (num_lt humidity (int 0) ->
        rule_service.weather_risk (core.recommendation r) = "Low").
Proof.
  intros Hcl Hne Hall.
  destruct (getPrescription_classified files classes humidity temperature
              wetness lat lon Hcl Hne Hall) as (label & rec & Hi & _ & Er & E).
  destruct (get_recommendation_in_range _ humidity temperature wetness Hi)
    as (rec' & Er' & _ & W & _).
  rewrite Er in Er'. injection Er' as <-.
  eexists. split; [exact E|]. cbn [core.weather core.recommendation].
  split; [reflexivity|]. split; [exact W|].
  intros Hneg. rewrite W. now apply negative_humidity_low.
Qed.

(** C8: the weather object of a response holds the five readings as they
    were passed, and the coordinates reach nothing else: a call with other
    coordinates fails in the same way or returns the same response with
    only [lat] and [lon] replaced, and leaves the same module state. *)
Theorem coordinates_only_echoed
    (st : store) (files : list UploadFile)
    (humidity temperature wetness lat lon lat' lon' : pyfloat) :
  getPrescription files humidity temperature wetness lat' lon' st
  = (map_result (with_coordinates lat' lon')
       (getPrescription files humidity temperature wetness lat lon st).1,
     (getPrescription files humidity temperature wetness lat lon st).2)
  /\ forall r : core.response,
      (getPrescription files humidity temperature wetness lat lon st).1 = Ok r ->
      core.weather r
      = {| core.humidity := humidity; core.temperature := temperature;
           core.wetness := wetness; core.lat := lat; core.lon := lon |}.
Proof.
  unfold core.getPrescription, bind, lift, load, ret.
  destruct (per_image_inference files 0 [] 0 st) as [[acc|e] s1];
    [|split; [reflexivity|discriminate]].
  destruct (int_truediv _ _) as [ratio|e]; [|split; [reflexivity|discriminate]].
  destruct (float_mul_int _ _) as [percent|e]; [|split; [reflexivity|discriminate]].
  destruct (float_round_ndigits _ _) as [psi|e]; [|split; [reflexivity|discriminate]].
  destruct (int_truediv _ _) as [mean|e]; [|split; [reflexivity|discriminate]].
  destruct (float_round _) as [overall_idx|e]; [|split; [reflexivity|discriminate]].
  destruct (list_getitem _ _) as [overall_label|e];
    [|split; [reflexivity|discriminate]].
  destruct (rule_service.get_recommendation _ _ _ _ _) as [[rec|e] s2];
    [|split; [reflexivity|discriminate]].
  split; [reflexivity|]. intros r [= <-]. reflexivity.
Qed.

(** C10: a mean that falls halfway between two integers is rounded to
    the even one.  Classes [0,1] (mean 0.5) give overall index 0 and
    classes [1,2] (mean 1.5) give overall index 2. *)
Theorem overall_severity_index_ties_to_even
    (files : list UploadFile) (classes : list Z)
    (humidity temperature wetness lat lon : pyfloat) :
  classified files classes -> classes <> [] -> Forall severity_class classes ->
  exists r : core.response,
    getPrescription files humidity temperature wetness lat lon initial_store
      = (Ok r, initial_store)
    /\ (forall k : Z,
         (2 * sum_classes classes = (2 * k + 1) * Z.of_nat (length classes))%Z ->
         core.overall_severity_index r = if Z.even k then k else (k + 1)%Z)
    /\ (classes = [0; 1]%Z -> core.overall_severity_index r = 0%Z)
    /\ (classes = [1; 2]%Z -> core.overall_severity_index r = 2%Z).
Proof.
  intros Hcl Hne Hall.
  destruct (getPrescription_classified files classes humidity temperature
              wetness lat lon Hcl Hne Hall) as (label & rec & Hi & _ & _ & E).
  pose proof (sum_classes_bounds classes Hall) as Hs.
  assert (Hn : (0 < Z.of_nat (length classes))%Z).
  { destruct classes; [congruence|cbn [length]; lia]. }
  eexists. split; [exact E|]. cbn [core.overall_severity_index].
  assert (T : forall k : Z,
         (2 * sum_classes classes = (2 * k + 1) * Z.of_nat (length classes))%Z ->
         rne (RN (inject_Z (sum_classes classes)
                  / inject_Z (Z.of_nat (length classes))))
         = if Z.even k then k else (k + 1)%Z).
  { intros k Hk. apply half_integer_mean_rounds_to_even; [exact Hn|lia|exact Hk]. }
  split; [exact T|]. split; intros ->.
  - apply (T 0%Z). reflexivity.
  - apply (T 1%Z). reflexivity.
Qed.

End RouteProperties.

(* ================================================================== *)
(** * Sample requests                                                  *)
(* ================================================================== *)

Section Samples.

Local Abbreviation getPrescription :=
  (core.getPrescription Z Z sample_open_rgb sample_predict).

Lemma sample_classified (classes : list Z) :
  classified sample_open_rgb sample_predict classes classes.
Proof.
  induction classes as [|c classes IH]; constructor; [|exact IH].
  exists c. split; reflexivity.
Qed.

Lemma sample_classes_in_range (classes : list Z) :
  forallb (fun c => (0 <=? c)%Z && (c <=? 3)%Z) classes = true ->
  Forall severity_class classes.
Proof.
  intros H. apply Forall_forall. intros c Hc.
  rewrite forallb_forall in H. apply list_elem_of_In in Hc.
  specialize (H c Hc). unfold severity_class. lia.
Qed.

(** A single image of class 1: index 33.33. *)
Lemma percent_severity_index_spec_witness :
  classified sample_open_rgb sample_predict [1%Z] [1%Z]
  /\ [1%Z] <> []
  /\ Forall severity_class [1%Z]
  /\ exists (r : core.response) (psi : Q),
      getPrescription [1%Z] (Fin 96) (Fin 27) (Fin 13) (Fin 14) (Fin 121)
        initial_store = (Ok r, initial_store)
      /\ core.percent_severity_index r = Fin psi
      /\ psi = psi_formula (sum_classes [1%Z]) (Z.of_nat (length [1%Z]))
      /\ (0 <= psi <= 100)%Q
      /\ (Qabs (psi - 100 * inject_Z (sum_classes [1%Z])
                       / inject_Z (3 * Z.of_nat (length [1%Z])))
          <= (1 # 200) + pow2 (-44))%Q
      /\ ([1%Z] = [0%Z] -> Fin psi = float_literal 0)
      /\ ([1%Z] = [1%Z] -> Fin psi = float_literal (3333 # 100))
      /\ ([1%Z] = [2%Z] -> Fin psi = float_literal (6667 # 100))
      /\ ([1%Z] = [3%Z] -> Fin psi = float_literal 100).
Proof.
  assert (H1 : classified sample_open_rgb sample_predict [1%Z] [1%Z])
    by apply sample_classified.
  assert (H2 : [1%Z] <> []) by discriminate.
  assert (H3 : Forall severity_class [1%Z])
    by (apply sample_classes_in_range; reflexivity).
  split; [exact H1|]. split; [exact H2|]. split; [exact H3|].
  exact (percent_severity_index_spec Z Z sample_open_rgb sample_predict
           [1%Z] [1%Z] (Fin 96) (Fin 27) (Fin 13) (Fin 14) (Fin 121) H1 H2 H3).
Defined.

(** Three images of classes 0, 3 and 0: index 1, label "Mild". *)
Lemma overall_severity_index_spec_witness :
  classified sample_open_rgb sample_predict [0; 3; 0]%Z [0; 3; 0]%Z
  /\ [0; 3; 0]%Z <> []
  /\ Forall severity_class [0; 3; 0]%Z
  /\ exists r : core.response,
      getPrescription [0; 3; 0]%Z (Fin 96) (Fin 27) (Fin 13) (Fin 14) (Fin 121)
        initial_store = (Ok r, initial_store)
      /\ core.overall_severity_index r = rne (RN (mean_class [0; 3; 0]%Z))
      /\ (0 <= core.overall_severity_index r <= 3)%Z
      /\ core.CLASS_LABELS !! Z.to_nat (core.overall_severity_index r)
         = Some (core.overall_label r)
      /\ ((Z.of_nat (length [0; 3; 0]%Z) < 2 ^ 51)%Z ->
          core.overall_severity_index r = rne (mean_class [0; 3; 0]%Z)
          /\ (Qabs (inject_Z (core.overall_severity_index r)
                    - mean_class [0; 3; 0]%Z) <= 1 # 2)%Q)
      /\ ([0; 3; 0]%Z = [0; 3; 0]%Z ->
          core.overall_severity_index r = 1%Z /\ core.overall_label r = "Mild").
Proof.
  assert (H1 : classified sample_open_rgb sample_predict [0; 3; 0]%Z [0; 3; 0]%Z)
    by apply sample_classified.
  assert (H2 : [0; 3; 0]%Z <> []) by discriminate.
  assert (H3 : Forall severity_class [0; 3; 0]%Z)
    by (apply sample_classes_in_range; reflexivity).
  split; [exact H1|]. split; [exact H2|]. split; [exact H3|].
  exact (overall_severity_index_spec Z Z sample_open_rgb sample_predict
           [0; 3; 0]%Z [0; 3; 0]%Z (Fin 96) (Fin 27) (Fin 13) (Fin 14) (Fin 121)
           H1 H2 H3).
Defined.

(** A reading with humidity -5 is answered, with tier "Low". *)
Lemma getPrescription_accepts_any_reading_witness :
  classified sample_open_rgb sample_predict [2%Z] [2%Z]
  /\ [2%Z] <> []
  /\ Forall severity_class [2%Z]
  /\ exists r : core.response,
      getPrescription [2%Z] (Fin (-5)) (Fin 24) (Fin 8) (Fin 14) (Fin 121)
        initial_store = (Ok r, initial_store)
      /\ core.weather r
         = {| core.humidity := Fin (-5); core.temperature := Fin 24;
              core.wetness := Fin 8; core.lat := Fin 14; core.lon := Fin 121 |}
      /\ rule_service.weather_risk (core.recommendation r)
         = rule_service._weather_risk (Fin 24) (Fin (-5)) (Fin 8)
      /\ (num_lt (Fin (-5)) (int 0) ->
          rule_service.weather_risk (core.recommendation r) = "Low").
Proof.
  assert (H1 : classified sample_open_rgb sample_predict [2%Z] [2%Z])
    by apply sample_classified.
  assert (H2 : [2%Z] <> []) by discriminate.
  assert (H3 : Forall severity_class [2%Z])
    by (apply sample_classes_in_range; reflexivity).
  split; [exact H1|]. split; [exact H2|]. split; [exact H3|].
  exact (getPrescription_accepts_any_reading Z Z sample_open_rgb sample_predict
           [2%Z] [2%Z] (Fin (-5)) (Fin 24) (Fin 8) (Fin 14) (Fin 121) H1 H2 H3).
Defined.

(** Two images of classes 1 and 2: mean 1.5, index 2. *)
Lemma overall_severity_index_ties_to_even_witness :
  classified sample_open_rgb sample_predict [1; 2]%Z [1; 2]%Z
  /\ [1; 2]%Z <> []
  /\ Forall severity_class [1; 2]%Z
  /\ exists r : core.response,
      getPrescription [1; 2]%Z (Fin 96) (Fin 27) (Fin 13) (Fin 14) (Fin 121)
        initial_store = (Ok r, initial_store)
      /\ (forall k : Z,
           (2 * sum_classes [1; 2]%Z
            = (2 * k + 1) * Z.of_nat (length [1; 2]%Z))%Z ->
           core.overall_severity_index r = if Z.even k then k else (k + 1)%Z)
      /\ ([1; 2]%Z = [0; 1]%Z -> core.overall_severity_index r = 0%Z)
      /\ ([1; 2]%Z = [1; 2]%Z -> core.overall_severity_index r = 2%Z).
Proof.
  assert (H1 : classified sample_open_rgb sample_predict [1; 2]%Z [1; 2]%Z)
    by apply sample_classified.
  assert (H2 : [1; 2]%Z <> []) by discriminate.
  assert (H3 : Forall severity_class [1; 2]%Z)
    by (apply sample_classes_in_range; reflexivity).
  split; [exact H1|]. split; [exact H2|]. split; [exact H3|].
  exact (overall_severity_index_ties_to_even Z Z sample_open_rgb sample_predict
           [1; 2]%Z [1; 2]%Z (Fin 96) (Fin 27) (Fin 13) (Fin 14) (Fin 121)
           H1 H2 H3).
Defined.


(** C7 fails as stated: a request with humidity -5 is not rejected; the
    value is classified ("Low") and echoed. *)
Lemma getPrescription_accepts_negative_humidity :
  num_lt (Fin (-5)) (int 0)
  /\ (getPrescription [2%Z] (Fin (-5)) (Fin 24) (Fin 8) (Fin 14) (Fin 121)
        initial_store).1 <> Raise InvalidInputError
  /\ exists r : core.response,
      (getPrescription [2%Z] (Fin (-5)) (Fin 24) (Fin 8) (Fin 14) (Fin 121)
         initial_store).1 = Ok r
      /\ core.humidity (core.weather r) = Fin (-5)
      /\ rule_service.weather_risk (core.recommendation r) = "Low".
Proof.
  split; [constructor; reflexivity|]. split.
  - vm_compute. discriminate.
  - eexists. split; [vm_compute; reflexivity|]. split; reflexivity.
Qed.

End Samples.

(* ================================================================== *)
(** * Arithmetic of the batch metrics, continued                       *)
(* ================================================================== *)

Section BatchMetricsArithmetic.

Local Open Scope Q_scope.

Lemma rne_nonneg (x : Q) : 0 <= x -> (0 <= rne x)%Z.
Proof.
  intros H. rewrite <- (rne_Z 0). apply rne_mono. exact H.
Qed.

Lemma psi_of_ratio_mono (x y : Q) :
  0 <= x -> x <= y -> psi_of_ratio x <= psi_of_ratio y.
Proof.
  intros Hx Hxy. unfold psi_of_ratio.
  pose proof (RN_nonneg x Hx) as P1.
  pose proof (RN_mono x y Hx Hxy) as M1.
  assert (P2 : 0 <= RN x * 100) by lra.
  pose proof (RN_nonneg _ P2) as P3.
  pose proof (RN_mono (RN x * 100) (RN y * 100) P2 ltac:(lra)) as M2.
  assert (P4 : 0 <= RN (RN x * 100) * 100) by lra.
  pose proof (rne_nonneg _ P4) as P5.
  pose proof (rne_mono (RN (RN x * 100) * 100) (RN (RN y * 100) * 100)
                ltac:(lra)) as M3.
  rewrite Zle_Qle in P5, M3. change (inject_Z 0) with 0 in P5.
  apply RN_mono.
  - apply Qle_shift_div_l; lra.
  - apply Qle_shift_div_l; [lra|].
    set (a := inject_Z (rne (RN (RN x * 100) * 100))) in *.
    set (b := inject_Z (rne (RN (RN y * 100) * 100))) in *.
    assert (E : a / 100 * 100 == a) by field. lra.
Qed.

Lemma psi_formula_ratio (s n : Z) :
  psi_formula s n = psi_of_ratio (inject_Z s / inject_Z (3 * n)).
Proof. unfold psi_formula, psi_of_ratio. cbv zeta. reflexivity. Qed.

Lemma ratio_of_mean (s n : Z) :
  (0 < n)%Z ->
  inject_Z s / inject_Z (3 * n) * 3 == inject_Z s / inject_Z n.
Proof.
  intros Hn. pose proof (inject_Z_pos n Hn) as Pn.
  rewrite inject_Z_mult. change (inject_Z 3) with 3. field. lra.
Qed.

(** Same batch size, larger sum: no smaller index. *)
Lemma psi_formula_mono (s s' n : Z) :
  (0 < n)%Z -> (0 <= s <= s')%Z -> psi_formula s n <= psi_formula s' n.
Proof.
  intros Hn Hs. rewrite !psi_formula_ratio.
  assert (Pn : 0 < inject_Z (3 * n)) by (apply inject_Z_pos; lia).
  assert (A : 0 <= inject_Z s) by (change 0 with (inject_Z 0); rewrite <- Zle_Qle; lia).
  assert (B : inject_Z s <= inject_Z s') by (rewrite <- Zle_Qle; lia).
  apply psi_of_ratio_mono.
  - apply Qle_shift_div_l; lra.
  - apply Qle_shift_div_l; [exact Pn|].
    assert (E : inject_Z s / inject_Z (3 * n) * inject_Z (3 * n) == inject_Z s)
      by (field; lra).
    lra.
Qed.

Lemma mean_index_mono (s s' n : Z) :
  (0 < n)%Z -> (0 <= s <= s')%Z ->
  (rne (RN (inject_Z s / inject_Z n)) <= rne (RN (inject_Z s' / inject_Z n)))%Z.
Proof.
  intros Hn Hs. pose proof (inject_Z_pos n Hn) as Pn.
  assert (A : 0 <= inject_Z s) by (change 0 with (inject_Z 0); rewrite <- Zle_Qle; lia).
  assert (B : inject_Z s <= inject_Z s') by (rewrite <- Zle_Qle; lia).
  apply rne_mono, RN_mono.
  - apply Qle_shift_div_l; lra.
  - apply Qle_shift_div_l; [exact Pn|].
    assert (E : inject_Z s / inject_Z n * inject_Z n == inject_Z s) by (field; lra).
    lra.
Qed.

(** A float that [round(_, 2)] produced is left alone by a second
    rounding. *)
Lemma round_2_again (p : Q) :
  0 <= p <= 100 ->
  rne (RN (inject_Z (rne (p * 100)) / 100) * 100) = rne (p * 100).
Proof.
  intros Hp. pose proof (round_decimal_bounds p Hp) as B.
  assert (P7 : 100 < pow2 7) by (vm_compute; reflexivity).
  pose proof (RN_err_below (inject_Z (rne (p * 100)) / 100) 7
                ltac:(lia) ltac:(lra) ltac:(lra)) as E.
  apply Qabs_Qle_condition in E.
  assert (K : pow2 (7 - 54) * 100 < 1 # 2) by (vm_compute; reflexivity).
  set (k := inject_Z (rne (p * 100))) in *.
  assert (Ek : k / 100 * 100 == k) by field.
  set (y := RN (k / 100)) in *. set (q := k / 100) in *.
  set (eps := pow2 (7 - 54)) in *. clearbody eps y q.
  apply rne_unique; fold k; lra.
Qed.

(** Uniform batches: the quotients do not depend on the batch size. *)
Lemma uniform_ratio (c n : Z) :
  (0 < n)%Z ->
  inject_Z (n * c) / inject_Z (3 * n) == inject_Z c / inject_Z (3 * 1).
Proof.
  intros Hn. pose proof (inject_Z_pos n Hn) as Pn.
  rewrite !inject_Z_mult.
  change (inject_Z 3) with 3. change (inject_Z 1) with 1. field. lra.
Qed.

Lemma uniform_mean (c n : Z) :
  (0 < n)%Z -> inject_Z (n * c) / inject_Z n == inject_Z c.
Proof.
  intros Hn. pose proof (inject_Z_pos n Hn) as Pn.
  rewrite inject_Z_mult. field. lra.
Qed.

Lemma uniform_metrics (c n : Z) :
  (0 < n)%Z -> (0 <= c <= 3)%Z ->
  psi_formula (n * c) n = psi_formula c 1
  /\ rne (RN (inject_Z (n * c) / inject_Z n)) = c.
Proof.
  intros Hn Hc. split.
  - unfold psi_formula. cbv zeta. now rewrite (RN_wd _ _ (uniform_ratio c n Hn)).
  - rewrite (RN_wd _ _ (uniform_mean c n Hn)).
    rewrite (rne_wd _ _ (RN_small_int c Hc)). apply rne_Z.
Qed.

(** The mean that rounds to [k] is within half a unit and one float
    rounding of [k]. *)
Lemma mean_near_index (s n : Z) :
  (0 < n)%Z -> (0 <= s <= 3 * n)%Z ->
  let m := inject_Z s / inject_Z n in
  inject_Z (rne (RN m)) - (1 # 2) - pow2 (-52) <= m
  /\ m <= inject_Z (rne (RN m)) + (1 # 2) + pow2 (-52).
Proof.
  intros Hn Hs m.
  destruct (Qdiv_bounds s n 0 3 Hn) as [X0 X3]; [lia|].
  change (inject_Z 0) with 0 in X0. change (inject_Z 3) with 3 in X3.
  fold m in X0, X3.
  pose proof (RN_err_below_4 m X0 ltac:(lra)) as E1.
  pose proof (rne_err (RN m)) as E2.
  apply Qabs_Qle_condition in E1, E2. lra.
Qed.

End BatchMetricsArithmetic.

(* ================================================================== *)
(** * The weather-risk classifier: bands and edge readings             *)
(* ================================================================== *)

Section WeatherRiskBands.

Lemma weather_risk_cases (t h w : pyfloat) :
  (high_rule t h w /\ rule_service._weather_risk t h w = "High")
  \/ (~ high_rule t h w /\ low_rule t h w
      /\ rule_service._weather_risk t h w = "Low")
  \/ (~ high_rule t h w /\ ~ low_rule t h w
      /\ rule_service._weather_risk t h w = "Medium").
Proof.
  pose proof (high_rule_spec t h w) as HH.
  pose proof (low_rule_spec t h w) as HL.
  unfold rule_service._weather_risk. cbv zeta.
  destruct (_ || _) eqn:EH in HH |- *;
    [|destruct (_ || _) eqn:EL in HL |- *].
  - left. split; [now apply HH|reflexivity].
  - right; left. split; [|split; [now apply HL|reflexivity]].
    intros N. apply HH in N. discriminate.
  - right; right. split; [|split; [|reflexivity]].
    + intros N. apply HH in N. discriminate.
    + intros N. apply HL in N. discriminate.
Qed.

Lemma num_order_total (x y : pyfloat) :
  x <> NaN -> y <> NaN -> num_lt x y \/ num_le y x.
Proof.
  intros Hx Hy. destruct x as [a|[|]|], y as [b|[|]|]; try congruence;
    try (left; constructor; fail); try (right; constructor; congruence).
  destruct (Qlt_le_dec a b) as [L|L]; [left|right]; now constructor.
Qed.

Lemma not_num_lt (x y : pyfloat) :
  x <> NaN -> y <> NaN -> (~ num_lt x y <-> num_le y x).
Proof.
  intros Hx Hy. split.
  - intros N. destruct (num_order_total x y Hx Hy); [contradiction|assumption].
  - intros L N. exact (num_lt_not_le _ _ N L).
Qed.


Lemma int_not_nan (n : Z) : int n <> NaN.
Proof. discriminate. Qed.

(** The high-risk and the low-risk rule never hold together, so the tier
    is "Low" exactly when the low-risk rule holds: the order in which the
    function tests the two rules does not show in its result. *)
Theorem weather_risk_low_iff (t h w : pyfloat) :
  (high_rule t h w -> ~ low_rule t h w)
  /\ (rule_service._weather_risk t h w = "Low" <-> low_rule t h w).
Proof.
  split; [intros H L; exact (high_low_exclusive t h w H L)|].
  destruct (weather_risk_cases t h w) as [(H & E)|[(NH & L & E)|(NH & NL & E)]];
    rewrite E; split; try discriminate; try tauto.
  intros L. exfalso. exact (high_low_exclusive t h w H L).
Qed.

(** The classic rule (25-30 degrees, 12 h of wetness) is contained in the
    rain-then-sun rule (22-30 degrees, 6 h), so the tier is "High" exactly
    when the rain-then-sun rule holds. *)
Theorem weather_risk_high_iff_rainsun (t h w : pyfloat) :
  (high_classic_rule t h w -> high_rainsun_rule t h w)
  /\ (rule_service._weather_risk t h w = "High" <-> high_rainsun_rule t h w).
Proof.
  assert (L1 : num_le (int 22) (int 25)) by (constructor; discriminate).
  assert (L2 : num_le (int 6) (int 12)) by (constructor; discriminate).
  assert (S : high_classic_rule t h w -> high_rainsun_rule t h w).
  { intros (A & B & C & D). repeat split; try assumption.
    - exact (num_le_trans _ _ _ L1 A).
    - exact (num_le_trans _ _ _ L2 D). }
  split; [exact S|].
  destruct (weather_risk_cases t h w) as [(H & E)|[(NH & L & E)|(NH & NL & E)]];
    rewrite E; split; try discriminate; try tauto.
  - intros _. destruct H as [H|H]; [now apply S|exact H].
  - intros H. exfalso. apply NH. now right.
  - intros H. exfalso. apply NH. now right.
Qed.


(** For readings that are numbers, the tier is "Medium" exactly when it
    is at least 22 degrees, 85 % humidity and 6 h of wetness, and either
    hotter than 30 degrees or below 95 % humidity. *)
Theorem weather_risk_medium_band (t h w : pyfloat) :
  t <> NaN -> h <> NaN -> w <> NaN ->
  (rule_service._weather_risk t h w = "Medium"
   <-> num_le (int 22) t /\ num_le (int 85) h /\ num_le (int 6) w
       /\ (num_lt (int 30) t \/ num_lt h (int 95))).
Proof.
  intros Ht Hh Hw.
  pose proof (not_num_lt t (int 22) Ht (int_not_nan 22)) as T22.
  pose proof (not_num_lt h (int 85) Hh (int_not_nan 85)) as H85.
  pose proof (not_num_lt w (int 6) Hw (int_not_nan 6)) as W6.
  assert (L2 : num_le (int 6) (int 12)) by (constructor; discriminate).
  destruct (weather_risk_cases t h w) as [(H & E)|[(NH & L & E)|(NH & NL & E)]];
    rewrite E; split.
  - discriminate.
  - intros (A & B & C & [D|D]); exfalso.
    + destruct H as [(_ & X & _)|(_ & X & _)]; exact (num_lt_not_le _ _ D X).
    + destruct H as [(_ & _ & X & _)|(_ & _ & X & _)]; exact (num_lt_not_le _ _ D X).
  - discriminate.
  - intros (A & B & C & _). exfalso. destruct L as [L|[L|L]].
    + exact (num_lt_not_le _ _ L A).
    + exact (num_lt_not_le _ _ L B).
    + exact (num_lt_not_le _ _ L C).
  - intros _. unfold low_rule in NL.
    assert (A : num_le (int 22) t) by (apply T22; tauto).
    assert (B : num_le (int 85) h) by (apply H85; tauto).
    assert (C : num_le (int 6) w) by (apply W6; tauto).
    split; [exact A|]. split; [exact B|]. split; [exact C|].
    destruct (num_order_total (int 30) t (int_not_nan 30) Ht) as [D|D];
      [now left|].
    destruct (num_order_total h (int 95) Hh (int_not_nan 95)) as [F|F];
      [now right|].
    exfalso. apply NH. right. repeat split; assumption.
  - intros _. reflexivity.
Qed.

Lemma num_le_lt_trans (x y z : pyfloat) : num_le x y -> num_lt y z -> num_lt x z.
Proof.
  intros H1 H2. destruct H2; inversion H1; subst; try congruence;
    try (constructor; fail).
  constructor. eapply Qle_lt_trans; eassumption.
Qed.

(** More humidity or a longer wetness never lowers the tier: at the same
    temperature, readings that are at least as humid and at least as wet
    are classified at least as high. *)
Theorem weather_risk_monotone (t h w h' w' : pyfloat) :
  num_le h h' -> num_le w w' ->
  tier_rank (rule_service._weather_risk t h w)
  <= tier_rank (rule_service._weather_risk t h' w').
Proof.
  intros Hh Hw.
  destruct (weather_risk_cases t h' w')
    as [(H' & E')|[(NH' & L' & E')|(NH' & NL' & E')]]; rewrite E'.
  - destruct (weather_risk_cases t h w) as [(_ & E)|[(_ & _ & E)|(_ & _ & E)]];
      rewrite E; cbn; lia.
  - assert (L : low_rule t h w).
    { destruct L' as [L'|[L'|L']].
      - now left.
      - right; left. exact (num_le_lt_trans _ _ _ Hh L').
      - right; right. exact (num_le_lt_trans _ _ _ Hw L'). }
    destruct (weather_risk_cases t h w) as [(H & E)|[(_ & _ & E)|(_ & NL & E)]];
      rewrite E; [|cbn; lia|contradiction].
    exfalso. exact (high_low_exclusive t h w H L).
  - destruct (weather_risk_cases t h w) as [(H & E)|[(_ & _ & E)|(_ & _ & E)]];
      rewrite E; [|cbn; lia|cbn; lia].
    exfalso. apply NH'.
    destruct H as [(A & B & C & D)|(A & B & C & D)]; [left|right];
      (split; [exact A|]; split; [exact B|]; split;
       [exact (num_le_trans _ _ _ C Hh)|exact (num_le_trans _ _ _ D Hw)]).
Qed.

End WeatherRiskBands.

(* ================================================================== *)
(** * The advisor: table integrity and missing entries                 *)
(* ================================================================== *)

Section AdvisorTables.

Lemma values_NoDup_key_unique {K V : Type} (l : list (K * V)) (k1 k2 : K) (v : V) :
  NoDup (l.*2) -> (k1, v) ∈ l -> (k2, v) ∈ l -> k1 = k2.
Proof.
  induction l as [|[k x] l IH]; intros Hnd H1 H2.
  - apply elem_of_nil in H1. contradiction.
  - cbn in Hnd. apply NoDup_cons in Hnd as [Hx Hnd].
    apply elem_of_cons in H1 as [E1|H1]; apply elem_of_cons in H2 as [E2|H2].
    + congruence.
    + exfalso. apply Hx. injection E1 as _ ->.
      apply list_elem_of_fmap. now exists (k2, x).
    + exfalso. apply Hx. injection E2 as _ ->.
      apply list_elem_of_fmap. now exists (k1, x).
    + now apply IH.
Qed.

Lemma table_values_identify_key (m : gmap (string * string) string)
    (k1 k2 : string * string) (a : string) :
  NoDup ((map_to_list m).*2) -> m !! k1 = Some a -> m !! k2 = Some a -> k1 = k2.
Proof.
  intros Hnd H1 H2. apply (values_NoDup_key_unique (map_to_list m) k1 k2 a Hnd);
    now apply elem_of_map_to_list.
Qed.

(** No two keys of [_RULE_MATRIX] share an advice text and no two keys of
    [_INFO_MATRIX] share an info text: the texts of a recommendation
    identify the severity label and the risk tier they were written
    for. *)
Theorem advisory_texts_identify_key (k1 k2 : string * string) (a : string) :
  (rule_service._RULE_MATRIX !! k1 = Some a ->
   rule_service._RULE_MATRIX !! k2 = Some a -> k1 = k2)
  /\ (rule_service._INFO_MATRIX !! k1 = Some a ->
      rule_service._INFO_MATRIX !! k2 = Some a -> k1 = k2).
Proof.
  split; apply table_values_identify_key;
    refine (bool_decide_unpack _ _); vm_compute; reflexivity.
Qed.

(** A key that is absent from one of the tables surfaces as KeyError:
    whatever the module state, once the label lookup has succeeded, a
    missing advice or info entry makes the call fail with KeyError and
    leaves the state as it was. *)
Theorem get_recommendation_missing_entry
    (st : store) (i : Z) (h t w : pyfloat) (label : string) :
  list_getitem (rule_service_CLASS_LABELS st) i = Ok label ->
  rule_service_RULE_MATRIX st !! (label, rule_service._weather_risk t h w) = None
  \/ rule_service_INFO_MATRIX st !! (label, rule_service._weather_risk t h w) = None ->
  rule_service.get_recommendation i h t w st = (Raise KeyError, st).
Proof.
  intros Hl Hmiss.
  unfold rule_service.get_recommendation, bind, load, lift, ret, dict_getitem.
  rewrite Hl.
  destruct (rule_service_RULE_MATRIX st !! _) as [a|] eqn:Ea; [|reflexivity].
  destruct Hmiss as [C|C]; [congruence|]. now rewrite C.
Qed.

End AdvisorTables.

(* ================================================================== *)
(** * The route: failures, order and consistency of the metrics        *)
(* ================================================================== *)

Section RouteBehaviour.

Variable UploadFile : Type.
Variable Image : Type.
Variable open_rgb : UploadFile -> result Image.
Variable predict : Image -> Z.

Local Abbreviation per_image_inference :=
  (core.per_image_inference UploadFile Image open_rgb predict).
Local Abbreviation getPrescription :=
  (core.getPrescription UploadFile Image open_rgb predict).
Local Abbreviation classified := (classified open_rgb predict).

Lemma nonempty_length_pos {A : Type} (l : list A) :
  l <> [] -> (0 < Z.of_nat (length l))%Z.
Proof. destruct l; [congruence|cbn [length]; lia]. Qed.

Lemma sum_classes_permutation (classes classes' : list Z) :
  classes ≡ₚ classes' -> sum_classes classes = sum_classes classes'.
Proof.
  induction 1 as [|c l l' _ IH|c d l|l l' l'' _ IH1 _ IH2].
  - reflexivity.
  - cbn [sum_classes foldr]. fold (sum_classes l). fold (sum_classes l').
    now rewrite IH.
  - cbn [sum_classes foldr]. lia.
  - congruence.
Qed.

Lemma sum_classes_replicate (n : nat) (c : Z) :
  sum_classes (replicate n c) = (Z.of_nat n * c)%Z.
Proof.
  induction n as [|n IH]; cbn [replicate sum_classes foldr].
  - reflexivity.
  - fold (sum_classes (replicate n c)). rewrite IH. lia.
Qed.

Lemma classified_permutation (files files' : list UploadFile) (classes : list Z) :
  classified files classes -> files ≡ₚ files' ->
  exists classes', classes ≡ₚ classes' /\ classified files' classes'.
Proof.
  intros Hcl Hp. revert classes Hcl.
  induction Hp as [|f l l' _ IH|f g l|l l' l'' _ IH1 _ IH2]; intros classes Hcl.
  - inversion Hcl; subst. exists []. split; [reflexivity|constructor].
  - inversion Hcl as [|? c ? cs Hf Hrest]; subst.
    destruct (IH cs Hrest) as (cs' & P & C).
    exists (c :: cs'). split; [now constructor|now constructor].
  - inversion Hcl as [|? c ? cs Hf Hrest]; subst.
    inversion Hrest as [|? d ? ds Hg Hrest']; subst.
    exists (d :: c :: ds). split; [apply perm_swap|].
    constructor; [exact Hg|]. constructor; [exact Hf|exact Hrest'].
  - destruct (IH1 classes Hcl) as (c1 & P1 & C1).
    destruct (IH2 c1 C1) as (c2 & P2 & C2).
    exists c2. split; [now transitivity c1|exact C2].
Qed.

(** The loop, with the content of the predictions it appends. *)
Lemma per_image_inference_predictions (files : list UploadFile) (classes : list Z) :
  classified files classes -> Forall severity_class classes ->
  forall (st : store) (i : Z) (predictions : list core.prediction)
         (severity_sum : Z),
  core_CLASS_LABELS st = core.CLASS_LABELS ->
  exists predictions',
    per_image_inference files i predictions severity_sum st
    = (Ok (predictions ++ predictions', (severity_sum + sum_classes classes)%Z),
       st)
    /\ length predictions' = length files
    /\ forall (j : nat) (c : Z),
         classes !! j = Some c ->
         exists label : string,
           core.CLASS_LABELS !! Z.to_nat c = Some label
           /\ predictions' !! j
              = Some {| core.idx := (i + Z.of_nat j)%Z; core.severity := c;
                        core.label := label |}.
Proof.
  induction 1 as [|file c files classes (img & Ho & Hp) _ IH];
    intros Hall st i predictions severity_sum Hst.
  - exists []. cbn [core.per_image_inference sum_classes foldr length].
    rewrite app_nil_r, Z.add_0_r. split; [reflexivity|]. split; [reflexivity|].
    intros j c Hj. rewrite lookup_nil in Hj. discriminate.
  - inversion Hall as [|? ? Hc Hall']; subst.
    cbn [core.per_image_inference]. unfold bind at 1, lift at 1. rewrite Ho.
    unfold bind at 1, load at 1. rewrite Hst.
    destruct (list_getitem_in_range core.CLASS_LABELS (predict img))
      as (label & Hl & Hlab).
    { unfold severity_class in Hc. unfold core.CLASS_LABELS. cbn [length]. lia. }
    unfold bind at 1, lift at 1. rewrite Hl.
    destruct (IH Hall' st (i + 1)%Z
                (predictions
                 ++ [ {| core.idx := i; core.severity := predict img;
                         core.label := label |} ])
                (severity_sum + predict img)%Z Hst)
      as (predictions' & E & Hlen & Hcontent).
    eexists (_ :: predictions'). rewrite E. split; [|split].
    + rewrite <- app_assoc. cbn [sum_classes foldr app].
      fold (sum_classes classes). now rewrite Z.add_assoc.
    + cbn [length]. now rewrite Hlen.
    + intros [|j] c Hj.
      * cbn in Hj. injection Hj as <-. exists label. split; [exact Hlab|].
        cbn. now rewrite Z.add_0_r.
      * cbn in Hj. destruct (Hcontent j c Hj) as (label' & L' & P').
        exists label'. split; [exact L'|].
        change (predictions' !! j
                = Some {| core.idx := (i + Z.of_nat (S j))%Z; core.severity := c;
                          core.label := label' |}).
        rewrite P'. do 2 f_equal. lia.
Qed.

Lemma per_image_inference_decode_failure
    (pre post : list UploadFile) (bad : UploadFile) (classes : list Z) (e : exn) :
  classified pre classes -> Forall severity_class classes ->
  open_rgb bad = Raise e ->
  forall (st : store) (i : Z) (predictions : list core.prediction)
         (severity_sum : Z),
  core_CLASS_LABELS st = core.CLASS_LABELS ->
  per_image_inference (pre ++ bad :: post) i predictions severity_sum st
  = (Raise e, st).
Proof.
  induction 1 as [|file c files classes (img & Ho & Hp) _ IH];
    intros Hall Hbad st i predictions severity_sum Hst.
  - cbn [app core.per_image_inference]. unfold bind at 1, lift at 1.
    now rewrite Hbad.
  - inversion Hall as [|? ? Hc Hall']; subst.
    cbn [app core.per_image_inference]. unfold bind at 1, lift at 1. rewrite Ho.
    unfold bind at 1, load at 1. rewrite Hst.
    destruct (list_getitem_in_range core.CLASS_LABELS (predict img))
      as (label & Hl & _).
    { unfold severity_class in Hc. unfold core.CLASS_LABELS. cbn [length]. lia. }
    unfold bind at 1, lift at 1. rewrite Hl. now apply IH.
Qed.

Lemma per_image_inference_label_failure
    (pre post : list UploadFile) (file : UploadFile) (img : Image)
    (classes : list Z) :
  classified pre classes -> Forall severity_class classes ->
  open_rgb file = Ok img -> (predict img < -4 \/ 3 < predict img)%Z ->
  forall (st : store) (i : Z) (predictions : list core.prediction)
         (severity_sum : Z),
  core_CLASS_LABELS st = core.CLASS_LABELS ->
  per_image_inference (pre ++ file :: post) i predictions severity_sum st
  = (Raise IndexError, st).
Proof.
  induction 1 as [|f c files classes (img' & Ho & Hp) _ IH];
    intros Hall Hfile Hrange st i predictions severity_sum Hst.
  - cbn [app core.per_image_inference]. unfold bind at 1, lift at 1.
    rewrite Hfile. unfold bind at 1, load at 1. rewrite Hst.
    unfold bind at 1, lift at 1.
    rewrite list_getitem_out_of_range; [reflexivity|].
    unfold core.CLASS_LABELS. cbn [length]. lia.
  - inversion Hall as [|? ? Hc Hall']; subst.
    cbn [app core.per_image_inference]. unfold bind at 1, lift at 1. rewrite Ho.
    unfold bind at 1, load at 1. rewrite Hst.
    destruct (list_getitem_in_range core.CLASS_LABELS (predict img'))
      as (label & Hl & _).
    { unfold severity_class in Hc. unfold core.CLASS_LABELS. cbn [length]. lia. }
    unfold bind at 1, lift at 1. rewrite Hl. now apply IH.
Qed.

(** The per-image loop keeps the order of the batch: it returns one
    prediction per file, the prediction at position [j] records position
    [j], the class of the image at that position and the label of that
    class, and the accumulated sum is the sum of the classes. *)
Theorem per_image_inference_in_order
    (files : list UploadFile) (classes : list Z) :
  classified files classes -> Forall severity_class classes ->
  exists predictions : list core.prediction,
    per_image_inference files 0 [] 0 initial_store
    = (Ok (predictions, sum_classes classes), initial_store)
    /\ length predictions = length files
    /\ forall (j : nat) (c : Z),
         classes !! j = Some c ->
         exists label : string,
           core.CLASS_LABELS !! Z.to_nat c = Some label
           /\ predictions !! j
              = Some {| core.idx := Z.of_nat j; core.severity := c;
                        core.label := label |}.
Proof.
  intros Hcl Hall.
  destruct (per_image_inference_predictions files classes Hcl Hall
              initial_store 0 [] 0 eq_refl) as (predictions & E & Hlen & Hcontent).
  exists predictions. split; [exact E|]. split; [exact Hlen|exact Hcontent].
Qed.

(** A file that does not decode fails the whole request: when the files
    before it decode to classes in [0,3], the route raises the decoder's
    exception, whatever files follow and whatever the readings, and
    builds no response. *)
Theorem getPrescription_decode_failure
    (pre post : list UploadFile) (bad : UploadFile) (classes : list Z) (e : exn)
    (humidity temperature wetness lat lon : pyfloat) :
  classified pre classes -> Forall severity_class classes ->
  open_rgb bad = Raise e ->
  getPrescription (pre ++ bad :: post) humidity temperature wetness lat lon
    initial_store = (Raise e, initial_store).
Proof.
  intros Hcl Hall Hbad. unfold core.getPrescription. unfold bind at 1.
  now rewrite (per_image_inference_decode_failure pre post bad classes e
                 Hcl Hall Hbad initial_store 0 [] 0 eq_refl).
Qed.

(** A class below -4 or above 3 from the classifier fails the request
    with IndexError at the label lookup of that image. *)
Theorem getPrescription_class_out_of_range
    (pre post : list UploadFile) (file : UploadFile) (img : Image)
    (classes : list Z) (humidity temperature wetness lat lon : pyfloat) :
  classified pre classes -> Forall severity_class classes ->
  open_rgb file = Ok img -> (predict img < -4 \/ 3 < predict img)%Z ->
  getPrescription (pre ++ file :: post) humidity temperature wetness lat lon
    initial_store = (Raise IndexError, initial_store).
Proof.
  intros Hcl Hall Hfile Hrange. unfold core.getPrescription. unfold bind at 1.
  now rewrite (per_image_inference_label_failure pre post file img classes
                 Hcl Hall Hfile Hrange initial_store 0 [] 0 eq_refl).
Qed.

(** The response does not depend on the order of the images: a batch and
    any rearrangement of it get the same result. *)
Theorem getPrescription_order_irrelevant
    (files files' : list UploadFile) (classes : list Z)
    (humidity temperature wetness lat lon : pyfloat) :
  classified files classes -> classes <> [] -> Forall severity_class classes ->
  files ≡ₚ files' ->
  getPrescription files' humidity temperature wetness lat lon initial_store
  = getPrescription files humidity temperature wetness lat lon initial_store.
Proof.
  intros Hcl Hne Hall Hperm.
  destruct (classified_permutation files files' classes Hcl Hperm)
    as (classes' & P & Hcl').
  assert (Hne' : classes' <> []).
  { intros ->. apply Permutation_nil_r in P. contradiction. }
  assert (Hall' : Forall severity_class classes') by now rewrite <- P.
  destruct (getPrescription_classified UploadFile Image open_rgb predict
              files classes humidity temperature wetness lat lon Hcl Hne Hall)
    as (label & rec & _ & L & Er & E).
  destruct (getPrescription_classified UploadFile Image open_rgb predict
              files' classes' humidity temperature wetness lat lon
              Hcl' Hne' Hall')
    as (label' & rec' & _ & L' & Er' & E').
  rewrite <- (sum_classes_permutation _ _ P) in L', Er', E'.
  rewrite <- (Permutation_length P) in L', Er', E'.
  rewrite L in L'. injection L' as <-.
  rewrite Er in Er'. injection Er' as <-.
  now rewrite E, E'.
Qed.

(** A batch in which every image has the same class [c] gets overall
    index [c], the label of [c] and the percent severity index of a single
    image of class [c] (0.0, 33.33, 66.67 or 100.0), whatever its size. *)
Theorem getPrescription_uniform_batch
    (files : list UploadFile) (c : Z)
    (humidity temperature wetness lat lon : pyfloat) :
  files <> [] -> severity_class c ->
  classified files (replicate (length files) c) ->
  exists r : core.response,
    getPrescription files humidity temperature wetness lat lon initial_store
      = (Ok r, initial_store)
    /\ core.overall_severity_index r = c
    /\ core.CLASS_LABELS !! Z.to_nat c = Some (core.overall_label r)
    /\ [float_literal 0; float_literal (3333 # 100);
        float_literal (6667 # 100); float_literal 100] !! Z.to_nat c
       = Some (core.percent_severity_index r).
Proof.
  intros Hne Hc Hcl.
  pose proof (nonempty_length_pos files Hne) as Hn.
  assert (Hne' : replicate (length files) c <> []).
  { destruct files; [congruence|discriminate]. }
  assert (Hall : Forall severity_class (replicate (length files) c))
    by now apply Forall_replicate.
  destruct (getPrescription_classified UploadFile Image open_rgb predict
              files _ humidity temperature wetness lat lon Hcl Hne' Hall)
    as (label & rec & _ & L & _ & E).
  rewrite sum_classes_replicate, length_replicate in L, E.
  destruct (uniform_metrics c (Z.of_nat (length files)) Hn Hc) as [Epsi Eidx].
  rewrite Epsi, Eidx in E. rewrite Eidx in L.
  eexists. split; [exact E|].
  cbn [core.overall_severity_index core.overall_label core.percent_severity_index].
  split; [reflexivity|]. split; [exact L|].
  unfold severity_class in Hc.
  assert (C : c = 0%Z \/ c = 1%Z \/ c = 2%Z \/ c = 3%Z) by lia.
  destruct C as [-> | [-> | [-> | ->]]]; vm_compute; reflexivity.
Qed.

(** Of two batches of the same size, the one with the larger sum of
    classes has the percent severity index and the overall index that are
    at least as large. *)
Theorem batch_metrics_monotone
    (files files' : list UploadFile) (classes classes' : list Z)
    (humidity temperature wetness lat lon : pyfloat) :
  classified files classes -> classified files' classes' ->
  classes <> [] ->
  Forall severity_class classes -> Forall severity_class classes' ->
  length classes = length classes' ->
  (sum_classes classes <= sum_classes classes')%Z ->
  exists (r r' : core.response) (psi psi' : Q),
    getPrescription files humidity temperature wetness lat lon initial_store
      = (Ok r, initial_store)
    /\ getPrescription files' humidity temperature wetness lat lon initial_store
       = (Ok r', initial_store)
    /\ core.percent_severity_index r = Fin psi
    /\ core.percent_severity_index r' = Fin psi'
    /\ (psi <= psi')%Q
    /\ (core.overall_severity_index r <= core.overall_severity_index r')%Z.
Proof.
  intros Hcl Hcl' Hne Hall Hall' Hlen Hsum.
  assert (Hne' : classes' <> []).
  { destruct classes, classes'; try congruence; discriminate. }
  pose proof (nonempty_length_pos classes Hne) as Hn.
  pose proof (sum_classes_bounds classes Hall) as Hs.
  destruct (getPrescription_classified UploadFile Image open_rgb predict
              files classes humidity temperature wetness lat lon Hcl Hne Hall)
    as (label & rec & _ & _ & _ & E).
  destruct (getPrescription_classified UploadFile Image open_rgb predict
              files' classes' humidity temperature wetness lat lon
              Hcl' Hne' Hall')
    as (label' & rec' & _ & _ & _ & E').
  rewrite <- Hlen in E'.
  eexists _, _, _, _. split; [exact E|]. split; [exact E'|].
  cbn [core.percent_severity_index core.overall_severity_index].
  split; [reflexivity|]. split; [reflexivity|]. split.
  - apply psi_formula_mono; lia.
  - apply mean_index_mono; lia.
Qed.

(** The two labels of a response agree: [overall_label], read from the
    label list of the route, and [recommendation.severity_label], read
    from the label list of the rule service, are the same label, the one
    at the overall index. *)
Theorem response_labels_agree
    (files : list UploadFile) (classes : list Z)
    (humidity temperature wetness lat lon : pyfloat) :
  classified files classes -> classes <> [] -> Forall severity_class classes ->
  exists r : core.response,
    getPrescription files humidity temperature wetness lat lon initial_store
      = (Ok r, initial_store)
    /\ rule_service.severity_label (core.recommendation r) = core.overall_label r
    /\ rule_service.CLASS_LABELS !! Z.to_nat (core.overall_severity_index r)
       = Some (core.overall_label r).
Proof.
  intros Hcl Hne Hall.
  destruct (getPrescription_classified UploadFile Image open_rgb predict
              files classes humidity temperature wetness lat lon Hcl Hne Hall)
    as (label & rec & Hi & L & Er & E).
  destruct (get_recommendation_in_range _ humidity temperature wetness Hi)
    as (rec' & Er' & L' & _).
  rewrite Er in Er'. injection Er' as <-.
  change rule_service.CLASS_LABELS with core.CLASS_LABELS in L'.
  eexists. split; [exact E|].
  cbn [core.recommendation core.overall_label core.overall_severity_index].
  split; [congruence|exact L].
Qed.

(** The percent severity index is a two-decimal float: it is the float
    nearest to [k / 100] for an integer [k] between 0 and 10000, [k] is
    recovered by rounding [100 * psi], and rounding the index to two
    decimals again returns it unchanged. *)
Theorem percent_severity_index_two_decimals
    (files : list UploadFile) (classes : list Z)
    (humidity temperature wetness lat lon : pyfloat) :
  classified files classes -> classes <> [] -> Forall severity_class classes ->
  exists (r : core.response) (psi : Q) (k : Z),
    getPrescription files humidity temperature wetness lat lon initial_store
      = (Ok r, initial_store)
    /\ core.percent_severity_index r = Fin psi
    /\ (0 <= k <= 10000)%Z
    /\ psi = RN (inject_Z k / 100)%Q
    /\ rne (psi * 100)%Q = k
    /\ float_round_ndigits (Fin psi) 2 = Ok (Fin psi).
Proof.
  intros Hcl Hne Hall.
  pose proof (nonempty_length_pos classes Hne) as Hn.
  pose proof (sum_classes_bounds classes Hall) as Hs.
  destruct (getPrescription_classified UploadFile Image open_rgb predict
              files classes humidity temperature wetness lat lon Hcl Hne Hall)
    as (label & rec & _ & _ & _ & E).
  set (s := sum_classes classes) in *. set (n := Z.of_nat (length classes)) in *.
  destruct (int_truediv_small s (3 * n) 1) as [_ B1]; [lia|lia|lia|].
  change (inject_Z 1) with 1%Q in B1.
  destruct (float_mul_int_100 _ B1) as [_ B2].
  set (percent := RN (RN (inject_Z s / inject_Z (3 * n)) * 100)%Q) in *.
  pose proof (round_2_again percent B2) as R.
  destruct (float_round_ndigits_2 percent B2) as [_ B3].
  destruct (float_round_ndigits_2 _ B3) as [E3 _].
  rewrite R in E3.
  exists {| core.percent_severity_index := Fin (psi_formula s n);
            core.overall_label := label;
            core.overall_severity_index := rne (RN (inject_Z s / inject_Z n));
            core.weather :=
              {| core.humidity := humidity; core.temperature := temperature;
                 core.wetness := wetness; core.lat := lat; core.lon := lon |};
            core.recommendation := rec |},
         (psi_formula s n), (rne (percent * 100)%Q).
  split; [exact E|]. split; [reflexivity|]. split.
  - split.
    + apply rne_nonneg. lra.
    + rewrite <- (rne_Z 10000). apply rne_mono.
      change (inject_Z 10000) with 10000%Q. lra.
  - split; [unfold psi_formula; cbv zeta; reflexivity|].
    split; [exact R|exact E3].
Qed.

(** The overall label bounds the percent severity index: with overall
    index 0 the index is at most 16.67, with 1 it lies between 16.67 and
    50.0, with 2 between 50.0 and 83.33, and with 3 it is at least
    83.33. *)
Theorem overall_index_bounds_percent
    (files : list UploadFile) (classes : list Z)
    (humidity temperature wetness lat lon : pyfloat) :
  classified files classes -> classes <> [] -> Forall severity_class classes ->
  exists (r : core.response) (psi : Q),
    getPrescription files humidity temperature wetness lat lon initial_store
      = (Ok r, initial_store)
    /\ core.percent_severity_index r = Fin psi
    /\ (core.overall_severity_index r = 0%Z -> psi <= RN (1667 # 100))%Q
    /\ (core.overall_severity_index r = 1%Z ->
        RN (1667 # 100) <= psi /\ psi <= 50)%Q
    /\ (core.overall_severity_index r = 2%Z ->
        50 <= psi /\ psi <= RN (8333 # 100))%Q
    /\ (core.overall_severity_index r = 3%Z -> RN (8333 # 100) <= psi)%Q.
Proof.
  intros Hcl Hne Hall.
  pose proof (nonempty_length_pos classes Hne) as Hn.
  pose proof (sum_classes_bounds classes Hall) as Hs.
  destruct (getPrescription_classified UploadFile Image open_rgb predict
              files classes humidity temperature wetness lat lon Hcl Hne Hall)
    as (label & rec & _ & _ & _ & E).
  set (s := sum_classes classes) in *. set (n := Z.of_nat (length classes)) in *.
  destruct (mean_near_index s n Hn Hs) as [Lo Hi].
  pose proof (ratio_of_mean s n Hn) as Ex.
  destruct (Qdiv_bounds s (3 * n) 0 1) as [X0 _]; [lia|lia|].
  change (inject_Z 0) with 0%Q in X0.
  pose proof (pow2_pos (-52)) as Pp.
  eexists _, _. split; [exact E|].
  cbn [core.percent_severity_index core.overall_severity_index].
  split; [reflexivity|]. rewrite psi_formula_ratio.
  set (x := (inject_Z s / inject_Z (3 * n))%Q) in *.
  set (m := (inject_Z s / inject_Z n)%Q) in *.
  clear E. clearbody x m.
  assert (U0 : (psi_of_ratio ((1 # 6) + pow2 (-52)) <= RN (1667 # 100))%Q)
    by (vm_compute; discriminate).
  assert (L1 : (RN (1667 # 100) <= psi_of_ratio ((1 # 6) - pow2 (-52)))%Q)
    by (vm_compute; discriminate).
  assert (U1 : (psi_of_ratio ((1 # 2) + pow2 (-52)) <= 50)%Q)
    by (vm_compute; discriminate).
  assert (L2 : (50 <= psi_of_ratio ((1 # 2) - pow2 (-52)))%Q)
    by (vm_compute; discriminate).
  assert (U2 : (psi_of_ratio ((5 # 6) + pow2 (-52)) <= RN (8333 # 100))%Q)
    by (vm_compute; discriminate).
  assert (L3 : (RN (8333 # 100) <= psi_of_ratio ((5 # 6) - pow2 (-52)))%Q)
    by (vm_compute; discriminate).
  assert (Small : (pow2 (-52) <= 1 # 12)%Q) by (vm_compute; discriminate).
  set (eps := pow2 (-52)) in *. clearbody eps.
  split; [|split; [|split]]; intros Hk; rewrite Hk in Lo, Hi;
    [|split|split|].
  - apply Qle_trans with (psi_of_ratio ((1 # 6) + eps)); [|exact U0].
    apply psi_of_ratio_mono; [exact X0|].
    change (inject_Z 0) with 0%Q in Hi. lra.
  - apply Qle_trans with (psi_of_ratio ((1 # 6) - eps)); [exact L1|].
    apply psi_of_ratio_mono; [lra|].
    change (inject_Z 1) with 1%Q in Lo. lra.
  - apply Qle_trans with (psi_of_ratio ((1 # 2) + eps)); [|exact U1].
    apply psi_of_ratio_mono; [exact X0|].
    change (inject_Z 1) with 1%Q in Hi. lra.
  - apply Qle_trans with (psi_of_ratio ((1 # 2) - eps)); [exact L2|].
    apply psi_of_ratio_mono; [lra|].
    change (inject_Z 2) with 2%Q in Lo. lra.
  - apply Qle_trans with (psi_of_ratio ((5 # 6) + eps)); [|exact U2].
    apply psi_of_ratio_mono; [exact X0|].
    change (inject_Z 2) with 2%Q in Hi. lra.
  - apply Qle_trans with (psi_of_ratio ((5 # 6) - eps)); [exact L3|].
    apply psi_of_ratio_mono; [lra|].
    change (inject_Z 3) with 3%Q in Lo. lra.
Qed.



End RouteBehaviour.

(* ================================================================== *)
(** * Further sample requests                                          *)
(* ================================================================== *)

Section MoreSamples.

Local Abbreviation getPrescription :=
  (core.getPrescription Z Z sample_open_rgb sample_predict).


(** 24 degrees, 90 % humidity, 8 h of wetness. *)
Lemma weather_risk_medium_band_witness :
  Fin 24 <> NaN /\ Fin 90 <> NaN /\ Fin 8 <> NaN
  /\ (rule_service._weather_risk (Fin 24) (Fin 90) (Fin 8) = "Medium"
      <-> num_le (int 22) (Fin 24) /\ num_le (int 85) (Fin 90)
          /\ num_le (int 6) (Fin 8)
          /\ (num_lt (int 30) (Fin 24) \/ num_lt (Fin 90) (int 95))).
Proof.
  assert (H1 : Fin 24 <> NaN) by discriminate.
  assert (H2 : Fin 90 <> NaN) by discriminate.
  assert (H3 : Fin 8 <> NaN) by discriminate.
  split; [exact H1|]. split; [exact H2|]. split; [exact H3|].
  exact (weather_risk_medium_band (Fin 24) (Fin 90) (Fin 8) H1 H2 H3).
Defined.

(** With the ("Mild", "High") advisory removed, a mild batch in high-risk
    weather gets KeyError. *)
Lemma get_recommendation_missing_entry_witness :
  list_getitem (rule_service_CLASS_LABELS (store_without_rule ("Mild", "High"))) 1
    = Ok "Mild"
  /\ (rule_service_RULE_MATRIX (store_without_rule ("Mild", "High"))
        !! ("Mild", rule_service._weather_risk (Fin 23) (Fin 96) (Fin 7)) = None
      \/ rule_service_INFO_MATRIX (store_without_rule ("Mild", "High"))
           !! ("Mild", rule_service._weather_risk (Fin 23) (Fin 96) (Fin 7)) = None)
  /\ rule_service.get_recommendation 1 (Fin 96) (Fin 23) (Fin 7)
       (store_without_rule ("Mild", "High"))
     = (Raise KeyError, store_without_rule ("Mild", "High")).
Proof.
  assert (H1 : list_getitem
                 (rule_service_CLASS_LABELS (store_without_rule ("Mild", "High"))) 1
               = Ok "Mild") by reflexivity.
  assert (H2 : rule_service_RULE_MATRIX (store_without_rule ("Mild", "High"))
                 !! ("Mild", rule_service._weather_risk (Fin 23) (Fin 96) (Fin 7))
               = None
               \/ rule_service_INFO_MATRIX (store_without_rule ("Mild", "High"))
                    !! ("Mild", rule_service._weather_risk (Fin 23) (Fin 96) (Fin 7))
                  = None)
    by (left; vm_compute; reflexivity).
  split; [exact H1|]. split; [exact H2|].
  exact (get_recommendation_missing_entry (store_without_rule ("Mild", "High"))
           1 (Fin 96) (Fin 23) (Fin 7) "Mild" H1 H2).
Defined.

(** Three images of classes 2, 0 and 3. *)
Lemma per_image_inference_in_order_witness :
  classified sample_open_rgb sample_predict [2; 0; 3]%Z [2; 0; 3]%Z
  /\ Forall severity_class [2; 0; 3]%Z
  /\ exists predictions : list core.prediction,
      core.per_image_inference Z Z sample_open_rgb sample_predict
        [2; 0; 3]%Z 0 [] 0 initial_store
      = (Ok (predictions, sum_classes [2; 0; 3]%Z), initial_store)
      /\ length predictions = length [2; 0; 3]%Z
      /\ forall (j : nat) (c : Z),
           [2; 0; 3]%Z !! j = Some c ->
           exists label : string,
             core.CLASS_LABELS !! Z.to_nat c = Some label
             /\ predictions !! j
                = Some {| core.idx := Z.of_nat j; core.severity := c;
                          core.label := label |}.
Proof.
  assert (H1 : classified sample_open_rgb sample_predict [2; 0; 3]%Z [2; 0; 3]%Z)
    by apply sample_classified.
  assert (H2 : Forall severity_class [2; 0; 3]%Z)
    by (apply sample_classes_in_range; reflexivity).
  split; [exact H1|]. split; [exact H2|].
  exact (per_image_inference_in_order Z Z sample_open_rgb sample_predict
           [2; 0; 3]%Z [2; 0; 3]%Z H1 H2).
Defined.

(** The second of three uploads is not an image. *)
Lemma getPrescription_decode_failure_witness :
  classified sample_open_rgb_checked sample_predict [1%Z] [1%Z]
  /\ Forall severity_class [1%Z]
  /\ sample_open_rgb_checked (-1) = Raise (Exception "UnidentifiedImageError")
  /\ core.getPrescription Z Z sample_open_rgb_checked sample_predict
       ([1%Z] ++ (-1)%Z :: [2%Z]) (Fin 96) (Fin 27) (Fin 13) (Fin 14) (Fin 121)
       initial_store
     = (Raise (Exception "UnidentifiedImageError"), initial_store).
Proof.
  assert (H1 : classified sample_open_rgb_checked sample_predict [1%Z] [1%Z]).
  { constructor; [|constructor]. exists 1%Z. split; reflexivity. }
  assert (H2 : Forall severity_class [1%Z])
    by (apply sample_classes_in_range; reflexivity).
  assert (H3 : sample_open_rgb_checked (-1)
               = Raise (Exception "UnidentifiedImageError")) by reflexivity.
  split; [exact H1|]. split; [exact H2|]. split; [exact H3|].
  exact (getPrescription_decode_failure Z Z sample_open_rgb_checked sample_predict
           [1%Z] [2%Z] (-1)%Z [1%Z] (Exception "UnidentifiedImageError")
           (Fin 96) (Fin 27) (Fin 13) (Fin 14) (Fin 121) H1 H2 H3).
Defined.

(** The classifier answers 7 for the second of two images. *)
Lemma getPrescription_class_out_of_range_witness :
  classified sample_open_rgb sample_predict [1%Z] [1%Z]
  /\ Forall severity_class [1%Z]
  /\ sample_open_rgb 7 = Ok 7%Z
  /\ (sample_predict 7 < -4 \/ 3 < sample_predict 7)%Z
  /\ getPrescription ([1%Z] ++ 7%Z :: []) (Fin 96) (Fin 27) (Fin 13)
       (Fin 14) (Fin 121) initial_store
     = (Raise IndexError, initial_store).
Proof.
  assert (H1 : classified sample_open_rgb sample_predict [1%Z] [1%Z])
    by apply sample_classified.
  assert (H2 : Forall severity_class [1%Z])
    by (apply sample_classes_in_range; reflexivity).
  assert (H3 : sample_open_rgb 7 = Ok 7%Z) by reflexivity.
  assert (H4 : (sample_predict 7 < -4 \/ 3 < sample_predict 7)%Z)
    by (right; reflexivity).
  split; [exact H1|]. split; [exact H2|]. split; [exact H3|]. split; [exact H4|].
  exact (getPrescription_class_out_of_range Z Z sample_open_rgb sample_predict
           [1%Z] [] 7%Z 7%Z [1%Z] (Fin 96) (Fin 27) (Fin 13) (Fin 14) (Fin 121)
           H1 H2 H3 H4).
Defined.

(** Classes 0 and 3, uploaded in either order. *)
Lemma getPrescription_order_irrelevant_witness :
  classified sample_open_rgb sample_predict [0; 3]%Z [0; 3]%Z
  /\ [0; 3]%Z <> []
  /\ Forall severity_class [0; 3]%Z
  /\ [0; 3]%Z ≡ₚ [3; 0]%Z
  /\ getPrescription [3; 0]%Z (Fin 96) (Fin 27) (Fin 13) (Fin 14) (Fin 121)
       initial_store
     = getPrescription [0; 3]%Z (Fin 96) (Fin 27) (Fin 13) (Fin 14) (Fin 121)
         initial_store.
Proof.
  assert (H1 : classified sample_open_rgb sample_predict [0; 3]%Z [0; 3]%Z)
    by apply sample_classified.
  assert (H2 : [0; 3]%Z <> []) by discriminate.
  assert (H3 : Forall severity_class [0; 3]%Z)
    by (apply sample_classes_in_range; reflexivity).
  assert (H4 : [0; 3]%Z ≡ₚ [3; 0]%Z) by apply perm_swap.
  split; [exact H1|]. split; [exact H2|]. split; [exact H3|]. split; [exact H4|].
  exact (getPrescription_order_irrelevant Z Z sample_open_rgb sample_predict
           [0; 3]%Z [3; 0]%Z [0; 3]%Z (Fin 96) (Fin 27) (Fin 13) (Fin 14) (Fin 121)
           H1 H2 H3 H4).
Defined.

(** Four images of class 2: index 2, "Moderate", 66.67. *)
Lemma getPrescription_uniform_batch_witness :
  [2; 2; 2; 2]%Z <> []
  /\ severity_class 2
  /\ classified sample_open_rgb sample_predict [2; 2; 2; 2]%Z
       (replicate (length [2; 2; 2; 2]%Z) 2%Z)
  /\ exists r : core.response,
      getPrescription [2; 2; 2; 2]%Z (Fin 96) (Fin 27) (Fin 13) (Fin 14) (Fin 121)
        initial_store = (Ok r, initial_store)
      /\ core.overall_severity_index r = 2%Z
      /\ core.CLASS_LABELS !! Z.to_nat 2 = Some (core.overall_label r)
      /\ [float_literal 0; float_literal (3333 # 100);
          float_literal (6667 # 100); float_literal 100] !! Z.to_nat 2
         = Some (core.percent_severity_index r).
Proof.
  assert (H1 : [2; 2; 2; 2]%Z <> []) by discriminate.
  assert (H2 : severity_class 2) by (unfold severity_class; lia).
  assert (H3 : classified sample_open_rgb sample_predict [2; 2; 2; 2]%Z
                 (replicate (length [2; 2; 2; 2]%Z) 2%Z))
    by apply (sample_classified [2; 2; 2; 2]%Z).
  split; [exact H1|]. split; [exact H2|]. split; [exact H3|].
  exact (getPrescription_uniform_batch Z Z sample_open_rgb sample_predict
           [2; 2; 2; 2]%Z 2%Z (Fin 96) (Fin 27) (Fin 13) (Fin 14) (Fin 121)
           H1 H2 H3).
Defined.

(** Classes [0,1,1] against classes [2,1,3]. *)
Lemma batch_metrics_monotone_witness :
  classified sample_open_rgb sample_predict [0; 1; 1]%Z [0; 1; 1]%Z
  /\ classified sample_open_rgb sample_predict [2; 1; 3]%Z [2; 1; 3]%Z
  /\ [0; 1; 1]%Z <> []
  /\ Forall severity_class [0; 1; 1]%Z
  /\ Forall severity_class [2; 1; 3]%Z
  /\ length [0; 1; 1]%Z = length [2; 1; 3]%Z
  /\ (sum_classes [0; 1; 1] <= sum_classes [2; 1; 3])%Z
  /\ exists (r r' : core.response) (psi psi' : Q),
      getPrescription [0; 1; 1]%Z (Fin 96) (Fin 27) (Fin 13) (Fin 14) (Fin 121)
        initial_store = (Ok r, initial_store)
      /\ getPrescription [2; 1; 3]%Z (Fin 96) (Fin 27) (Fin 13) (Fin 14) (Fin 121)
           initial_store = (Ok r', initial_store)
      /\ core.percent_severity_index r = Fin psi
      /\ core.percent_severity_index r' = Fin psi'
      /\ (psi <= psi')%Q
      /\ (core.overall_severity_index r <= core.overall_severity_index r')%Z.
Proof.
  assert (H1 : classified sample_open_rgb sample_predict [0; 1; 1]%Z [0; 1; 1]%Z)
    by apply sample_classified.
  assert (H2 : classified sample_open_rgb sample_predict [2; 1; 3]%Z [2; 1; 3]%Z)
    by apply sample_classified.
  assert (H3 : [0; 1; 1]%Z <> []) by discriminate.
  assert (H4 : Forall severity_class [0; 1; 1]%Z)
    by (apply sample_classes_in_range; reflexivity).
  assert (H5 : Forall severity_class [2; 1; 3]%Z)
    by (apply sample_classes_in_range; reflexivity).
  assert (H6 : length [0; 1; 1]%Z = length [2; 1; 3]%Z) by reflexivity.
  assert (H7 : (sum_classes [0; 1; 1] <= sum_classes [2; 1; 3])%Z)
    by (vm_compute; discriminate).
  split; [exact H1|]. split; [exact H2|]. split; [exact H3|]. split; [exact H4|].
  split; [exact H5|]. split; [exact H6|]. split; [exact H7|].
  exact (batch_metrics_monotone Z Z sample_open_rgb sample_predict
           [0; 1; 1]%Z [2; 1; 3]%Z [0; 1; 1]%Z [2; 1; 3]%Z
           (Fin 96) (Fin 27) (Fin 13) (Fin 14) (Fin 121)
           H1 H2 H3 H4 H5 H6 H7).
Defined.

(** Classes [3,2]: one label in both places. *)
Lemma response_labels_agree_witness :
  classified sample_open_rgb sample_predict [3; 2]%Z [3; 2]%Z
  /\ [3; 2]%Z <> []
  /\ Forall severity_class [3; 2]%Z
  /\ exists r : core.response,
      getPrescription [3; 2]%Z (Fin 96) (Fin 27) (Fin 13) (Fin 14) (Fin 121)
        initial_store = (Ok r, initial_store)
      /\ rule_service.severity_label (core.recommendation r) = core.overall_label r
      /\ rule_service.CLASS_LABELS !! Z.to_nat (core.overall_severity_index r)
         = Some (core.overall_label r).
Proof.
  assert (H1 : classified sample_open_rgb sample_predict [3; 2]%Z [3; 2]%Z)
    by apply sample_classified.
  assert (H2 : [3; 2]%Z <> []) by discriminate.
  assert (H3 : Forall severity_class [3; 2]%Z)
    by (apply sample_classes_in_range; reflexivity).
  split; [exact H1|]. split; [exact H2|]. split; [exact H3|].
  exact (response_labels_agree Z Z sample_open_rgb sample_predict
           [3; 2]%Z [3; 2]%Z (Fin 96) (Fin 27) (Fin 13) (Fin 14) (Fin 121)
           H1 H2 H3).
Defined.

(** Classes [1,2,2]: index 55.56, that is 5556 hundredths. *)
Lemma percent_severity_index_two_decimals_witness :
  classified sample_open_rgb sample_predict [1; 2; 2]%Z [1; 2; 2]%Z
  /\ [1; 2; 2]%Z <> []
  /\ Forall severity_class [1; 2; 2]%Z
  /\ exists (r : core.response) (psi : Q) (k : Z),
      getPrescription [1; 2; 2]%Z (Fin 96) (Fin 27) (Fin 13) (Fin 14) (Fin 121)
        initial_store = (Ok r, initial_store)
      /\ core.percent_severity_index r = Fin psi
      /\ (0 <= k <= 10000)%Z
      /\ psi = RN (inject_Z k / 100)%Q
      /\ rne (psi * 100)%Q = k
      /\ float_round_ndigits (Fin psi) 2 = Ok (Fin psi).
Proof.
  assert (H1 : classified sample_open_rgb sample_predict [1; 2; 2]%Z [1; 2; 2]%Z)
    by apply sample_classified.
  assert (H2 : [1; 2; 2]%Z <> []) by discriminate.
  assert (H3 : Forall severity_class [1; 2; 2]%Z)
    by (apply sample_classes_in_range; reflexivity).
  split; [exact H1|]. split; [exact H2|]. split; [exact H3|].
  exact (percent_severity_index_two_decimals Z Z sample_open_rgb sample_predict
           [1; 2; 2]%Z [1; 2; 2]%Z (Fin 96) (Fin 27) (Fin 13) (Fin 14) (Fin 121)
           H1 H2 H3).
Defined.

(** Classes [0,1]: overall index 0 and index 16.67. *)
Lemma overall_index_bounds_percent_witness :
  classified sample_open_rgb sample_predict [0; 1]%Z [0; 1]%Z
  /\ [0; 1]%Z <> []
  /\ Forall severity_class [0; 1]%Z
  /\ exists (r : core.response) (psi : Q),
      getPrescription [0; 1]%Z (Fin 96) (Fin 27) (Fin 13) (Fin 14) (Fin 121)
        initial_store = (Ok r, initial_store)
      /\ core.percent_severity_index r = Fin psi
      /\ (core.overall_severity_index r = 0%Z -> psi <= RN (1667 # 100))%Q
      /\ (core.overall_severity_index r = 1%Z ->
          RN (1667 # 100) <= psi /\ psi <= 50)%Q
      /\ (core.overall_severity_index r = 2%Z ->
          50 <= psi /\ psi <= RN (8333 # 100))%Q
      /\ (core.overall_severity_index r = 3%Z -> RN (8333 # 100) <= psi)%Q.
Proof.
  assert (H1 : classified sample_open_rgb sample_predict [0; 1]%Z [0; 1]%Z)
    by apply sample_classified.
  assert (H2 : [0; 1]%Z <> []) by discriminate.
  assert (H3 : Forall severity_class [0; 1]%Z)
    by (apply sample_classes_in_range; reflexivity).
  split; [exact H1|]. split; [exact H2|]. split; [exact H3|].
  exact (overall_index_bounds_percent Z Z sample_open_rgb sample_predict
           [0; 1]%Z [0; 1]%Z (Fin 96) (Fin 27) (Fin 13) (Fin 14) (Fin 121)
           H1 H2 H3).
Defined.

(** 25 degrees: 90 % and 7 h against 96 % and 13 h. *)
Lemma weather_risk_monotone_witness :
  num_le (Fin 90) (Fin 96) /\ num_le (Fin 7) (Fin 13)
  /\ tier_rank (rule_service._weather_risk (Fin 25) (Fin 90) (Fin 7))
     <= tier_rank (rule_service._weather_risk (Fin 25) (Fin 96) (Fin 13)).
Proof.
  assert (H1 : num_le (Fin 90) (Fin 96)) by (constructor; discriminate).
  assert (H2 : num_le (Fin 7) (Fin 13)) by (constructor; discriminate).
  split; [exact H1|]. split; [exact H2|].
  exact (weather_risk_monotone (Fin 25) (Fin 90) (Fin 7) (Fin 96) (Fin 13) H1 H2).
Defined.

End MoreSamples.
